(** * chat_viewer: a shallow embedding of [chat_viewer.py]

    The viewer reads the JSON transcripts of a Google Chat export, builds a
    catalogue of conversations and renders one conversation as framed text
    bubbles.  This file embeds the functions of [chat_viewer.py] that decide
    the documented behaviour of the viewer and proves, or refutes at a
    concrete input, the properties stated for them.

    Conventions of the embedding.
    - A Python [str] is a list of code points ([str := list N]); [len] is
      [length].  Literals are written [lit "..."], which decodes the UTF-8
      bytes of the Rocq literal.
    - A value returned by [json.load] is a [json] tree.  Numbers are the
      integers ([int]); [float] values are outside the model.
    - A Python call either returns or raises: [result A] is [Ok a] or
      [Raise e].  [try ... except:] is a match on the result.
    - The libraries the program calls but does not define ([wcwidth],
      [datetime], [re] inside [textwrap]) are parameters of the sections
      that use them; concrete instances are given where a property is
      evaluated on an input. *)

From Stdlib Require Import String Ascii.
From Stdlib Require Import List ZArith NArith Lia Bool.
From Stdlib Require QArith.
From Equations Require Import Equations.
Import ListNotations.

(* ------------------------------------------------------------------ *)
(** ** Python strings *)
(* ------------------------------------------------------------------ *)

Module Str.

Definition char := N.
Definition str := list char.

(** Decoding of the UTF-8 bytes of a Rocq string literal.  Only used on the
    literals of the program, which are well-formed UTF-8. *)
Fixpoint utf8_decode (bs : list N) : str :=
  match bs with
  | [] => []
  | b :: r =>
      if (b <? 128)%N then b :: utf8_decode r
      else if (b <? 224)%N then
        match r with
        | b1 :: r1 => ((b - 192) * 64 + (b1 - 128))%N :: utf8_decode r1
        | _ => []
        end
      else if (b <? 240)%N then
        match r with
        | b1 :: b2 :: r2 =>
            ((b - 224) * 4096 + (b1 - 128) * 64 + (b2 - 128))%N
              :: utf8_decode r2
        | _ => []
        end
      else
        match r with
        | b1 :: b2 :: b3 :: r3 =>
            ((b - 240) * 262144 + (b1 - 128) * 4096
             + (b2 - 128) * 64 + (b3 - 128))%N :: utf8_decode r3
        | _ => []
        end
  end.

Definition lit (s : string) : str :=
  utf8_decode (map N_of_ascii (list_ascii_of_string s)).
Arguments lit s%_string.

Definition space : char := 32%N.

(** The string of one line feed. *)
Definition NL : str := [10%N].

Definition len (s : str) : Z := Z.of_nat (length s).

Definition str_eqb (a b : str) : bool :=
  if list_eq_dec N.eq_dec a b then true else false.

(** [" " * n] and friends: a non-positive count gives the empty string. *)
Definition repeat_char (c : char) (n : Z) : str := repeat c (Z.to_nat n).

(** [sep.join(parts)] *)
Fixpoint join (sep : str) (parts : list str) : str :=
  match parts with
  | [] => []
  | [p] => p
  | p :: rest => p ++ sep ++ join sep rest
  end.

(** [s.startswith(prefix)] *)
Fixpoint startswith (s prefix : str) : bool :=
  match prefix, s with
  | [], _ => true
  | p :: ps, c :: cs => (p =? c)%N && startswith cs ps
  | _ :: _, [] => false
  end.

(** [str.isspace] on one code point: the characters of bidirectional type
    WS, B or S, and those of category Zs. *)
Definition isspace (c : char) : bool :=
  ((9 <=? c) && (c <=? 13) || (28 <=? c) && (c <=? 32)
   || (c =? 133) || (c =? 160) || (c =? 5760)
   || (8192 <=? c) && (c <=? 8202)
   || (c =? 8232) || (c =? 8233) || (c =? 8239) || (c =? 8287)
   || (c =? 12288))%N.

Fixpoint lstrip (s : str) : str :=
  match s with
  | c :: r => if isspace c then lstrip r else s
  | [] => []
  end.

Definition rstrip (s : str) : str := rev (lstrip (rev s)).

(** [s.strip()] *)
Definition strip (s : str) : str := rstrip (lstrip s).

(** [s.split(sep)] for a separator of one character: never empty. *)
Fixpoint split (sep : char) (s : str) : list str :=
  match s with
  | [] => [[]]
  | c :: r =>
      if (c =? sep)%N then [] :: split sep r
      else match split sep r with
           | h :: t => (c :: h) :: t
           | [] => [[c]]
           end
  end.

(** [s.ljust(width)], the effect of the format specification [<width] on a
    string, and [s.rjust(width)]. *)
Definition ljust (s : str) (width : Z) : str :=
  s ++ repeat_char space (width - len s).

Definition rjust (s : str) (width : Z) : str :=
  repeat_char space (width - len s) ++ s.

(** [s[:stop]] and [s[start:]] with Python's treatment of negative and
    out-of-range bounds. *)
Definition clamp (s : str) (i : Z) : nat :=
  Z.to_nat (Z.min (len s) (Z.max 0 (if i <? 0 then i + len s else i)%Z)).

Definition slice_to (s : str) (stop : Z) : str := firstn (clamp s stop) s.
Definition slice_from (s : str) (start : Z) : str := skipn (clamp s start) s.

(** Decimal digits of a natural number, as [str(n)] prints them. *)
Fixpoint digits_of_uint (u : Decimal.uint) : str :=
  match u with
  | Decimal.Nil => []
  | Decimal.D0 r => 48%N :: digits_of_uint r
  | Decimal.D1 r => 49%N :: digits_of_uint r
  | Decimal.D2 r => 50%N :: digits_of_uint r
  | Decimal.D3 r => 51%N :: digits_of_uint r
  | Decimal.D4 r => 52%N :: digits_of_uint r
  | Decimal.D5 r => 53%N :: digits_of_uint r
  | Decimal.D6 r => 54%N :: digits_of_uint r
  | Decimal.D7 r => 55%N :: digits_of_uint r
  | Decimal.D8 r => 56%N :: digits_of_uint r
  | Decimal.D9 r => 57%N :: digits_of_uint r
  end.

Definition str_of_N (n : N) : str := digits_of_uint (N.to_uint n).

(** [str(z)] for an [int]. *)
Definition str_of_Z (z : Z) : str :=
  if (z <? 0)%Z then 45%N :: str_of_N (Z.to_N (- z)) else str_of_N (Z.to_N z).

(** [s.splitlines()]: the line boundaries of [str], with [\r\n] as one. *)
Definition is_linebreak (c : char) : bool :=
  ((10 <=? c) && (c <=? 13) || (28 <=? c) && (c <=? 30)
   || (c =? 133) || (c =? 8232) || (c =? 8233))%N.

Fixpoint splitlines_aux (cur : str) (s : str) : list str :=
  match s with
  | [] => match cur with [] => [] | _ => [rev cur] end
  | c :: r =>
      if is_linebreak c then
        match c, r with
        | 13%N, 10%N :: r' => rev cur :: splitlines_aux [] r'
        | _, _ => rev cur :: splitlines_aux [] r
        end
      else splitlines_aux (c :: cur) r
  end.

Definition splitlines (s : str) : list str := splitlines_aux [] s.

(** Lexicographic order on code points, the order of [sorted] on [str]. *)
Fixpoint str_leb (a b : str) : bool :=
  match a, b with
  | [], _ => true
  | _ :: _, [] => false
  | x :: a', y :: b' => (x <? y)%N || ((x =? y)%N && str_leb a' b')
  end.

Fixpoint insert_sorted (x : str) (l : list str) : list str :=
  match l with
  | [] => [x]
  | y :: r => if str_leb x y then x :: l else y :: insert_sorted x r
  end.

(** [sorted(names)] *)
Definition sorted (l : list str) : list str := fold_right insert_sorted [] l.

End Str.
Import Str.

(* ------------------------------------------------------------------ *)
(** ** Outcomes of a call, and the values of [json.load] *)
(* ------------------------------------------------------------------ *)

Inductive exn : Set :=
  | FileNotFoundError
  | PermissionError
  | UnicodeDecodeError
  | JSONDecodeError
  | AttributeError
  | TypeError
  | KeyError
  | ValueError.

Inductive result (A : Type) : Type :=
  | Ok (a : A)
  | Raise (e : exn).
Arguments Ok {A} a.
Arguments Raise {A} e.

Definition bind {A B} (c : result A) (k : A -> result B) : result B :=
  match c with
  | Ok a => k a
  | Raise e => Raise e
  end.

Notation "x <- c ;; k" := (bind c (fun x => k))
  (at level 61, c at next level, right associativity).

Unset Elimination Schemes.
Inductive json : Type :=
  | JNull
  | JBool (b : bool)
  | JNum (z : Z)
  | JStr (s : str)
  | JList (l : list json)
  | JObj (kv : list (str * json)).
Set Elimination Schemes.

Module Py.

(** A [dict] with string keys keeps its items in insertion order and holds
    each key once; [lookup] returns the value of the first item with the
    key. *)
Fixpoint lookup (k : str) (kv : list (str * json)) : option json :=
  match kv with
  | [] => None
  | (k', v) :: r => if str_eqb k k' then Some v else lookup k r
  end.

(** [bool(v)] *)
Definition truthy (v : json) : bool :=
  match v with
  | JNull => false
  | JBool b => b
  | JNum z => negb (z =? 0)%Z
  | JStr s => match s with [] => false | _ => true end
  | JList l => match l with [] => false | _ => true end
  | JObj kv => match kv with [] => false | _ => true end
  end.

(** [a == b] on the values of [json.load]: [True == 1], lists compare
    element by element, dicts as sets of items. *)
Fixpoint eqb (a b : json) {struct a} : bool :=
  match a, b with
  | JNull, JNull => true
  | JBool x, JBool y => Bool.eqb x y
  | JBool x, JNum n => (n =? (if x then 1 else 0))%Z
  | JNum n, JBool x => (n =? (if x then 1 else 0))%Z
  | JNum x, JNum y => (x =? y)%Z
  | JStr x, JStr y => str_eqb x y
  | JList xs, JList ys =>
      (fix all2 (xs ys : list json) : bool :=
         match xs, ys with
         | [], [] => true
         | x :: xs', y :: ys' => eqb x y && all2 xs' ys'
         | _, _ => false
         end) xs ys
  | JObj kx, JObj ky =>
      (length kx =? length ky)%nat
      && (fix items (kx : list (str * json)) : bool :=
            match kx with
            | [] => true
            | (k, v) :: r =>
                match lookup k ky with
                | Some v' => eqb v v'
                | None => false
                end && items r
            end) kx
  | _, _ => false
  end.

(** [d.get(key, default)]: only a [dict] has the method. *)
Definition get (d : json) (key : str) (default : json) : result json :=
  match d with
  | JObj kv => Ok (match lookup key kv with Some v => v | None => default end)
  | _ => Raise AttributeError
  end.

(** [for x in v]: the elements of a list, the keys of a dict, the
    characters of a string; nothing else of a JSON document is iterable. *)
Definition iter (v : json) : result (list json) :=
  match v with
  | JList l => Ok l
  | JObj kv => Ok (map (fun p => JStr (fst p)) kv)
  | JStr s => Ok (map (fun c => JStr [c]) s)
  | _ => Raise TypeError
  end.

(** [v[:n]]: a list or a string can be sliced.  A [dict] raises ([TypeError]
    up to Python 3.11, [KeyError] from 3.12 on); the other values raise
    [TypeError]. *)
Definition slice_prefix (v : json) (n : nat) : result json :=
  match v with
  | JList l => Ok (JList (firstn n l))
  | JStr s => Ok (JStr (firstn n s))
  | _ => Raise TypeError
  end.

(** [v += suffix] for a string [suffix]: concatenation on a string; a list
    is extended with the characters; anything else raises. *)
Definition iadd_str (v : json) (suffix : str) : result json :=
  match v with
  | JStr s => Ok (JStr (s ++ suffix))
  | JList l => Ok (JList (l ++ map (fun c => JStr [c]) suffix))
  | _ => Raise TypeError
  end.

(** [format(v, "<width")], the replacement field [{v:<width}]: a string
    is padded on the right; an [int] (and a [bool], which is an [int]) is
    printed in decimal and padded; the other values reject the format
    specification. *)
Definition format_ljust (v : json) (width : Z) : result str :=
  match v with
  | JStr s => Ok (ljust s width)
  | JNum z => Ok (ljust (str_of_Z z) width)
  | JBool b => Ok (ljust (str_of_Z (if b then 1 else 0)) width)
  | _ => Raise TypeError
  end.

(** Whether a value can be a [dict] key ([hash(v)] succeeds). *)
Definition hashable (v : json) : bool :=
  match v with
  | JList _ | JObj _ => false
  | _ => true
  end.

End Py.

(* ------------------------------------------------------------------ *)
(** ** The archive on disk *)
(* ------------------------------------------------------------------ *)

(** A path is the list of its components; [os.path.join] appends.  The
    file system gives, for a directory, the names [os.listdir] returns (in
    its order) and, for the path of an existing file, what
    [open(path, "r", encoding="utf-8")] followed by [json.load] make of it:
    the parsed document, or the exception raised ([PermissionError],
    [UnicodeDecodeError], [JSONDecodeError], ...). *)
Definition path := list str.

Record filesystem : Type := {
  listdir : path -> list str;
  file : path -> option (result json)
}.

Definition path_eqb (a b : path) : bool :=
  if list_eq_dec (list_eq_dec N.eq_dec) a b then true else false.

(** [os.path.exists(p)] *)
Definition exists_ (fs : filesystem) (p : path) : bool :=
  match file fs p with Some _ => true | None => false end.

(** [with open(p, "r", encoding="utf-8") as f: data = json.load(f)] *)
Definition read_json (fs : filesystem) (p : path) : result json :=
  match file fs p with
  | Some r => r
  | None => Raise FileNotFoundError
  end.

(* ------------------------------------------------------------------ *)
(** ** Loading messages, pinned messages *)
(* ------------------------------------------------------------------ *)

Definition MESSAGES : str := lit "messages".
Definition PINNED : str := lit "PINNED".
Definition UNKNOWN : str := lit "Unknown".
Definition DELETED_USER : str := lit "Deleted User".

Definition load_messages (fs : filesystem) (p : path) : result json :=
  data <- read_json fs p ;;
  match data with
  | JObj kv =>
      match Py.lookup MESSAGES kv with
      | Some messages => Ok messages
      | None => Ok (JList [])
      end
  | JList _ => Ok data
  | _ => Ok (JList [])
  end.

(** [any(l.get("label_type") == "PINNED" for l in labels)] *)
Fixpoint any_pinned (labels : list json) : result bool :=
  match labels with
  | [] => Ok false
  | l :: rest =>
      t <- Py.get l (lit "label_type") JNull ;;
      if Py.eqb t (JStr PINNED) then Ok true else any_pinned rest
  end.

Definition is_pinned (msg : json) : result bool :=
  labels <- Py.get msg (lit "message_labels") (JList []) ;;
  ls <- Py.iter labels ;;
  any_pinned ls.

(** [sum(1 for m in messages if is_pinned(m))] *)
Fixpoint count_pinned_in (ms : list json) : result Z :=
  match ms with
  | [] => Ok 0%Z
  | m :: rest =>
      b <- is_pinned m ;;
      n <- count_pinned_in rest ;;
      Ok (if b then (1 + n)%Z else n)
  end.

Definition count_pinned (messages : json) : result Z :=
  ms <- Py.iter messages ;;
  count_pinned_in ms.

(** [[m for m in messages if is_pinned(m)]] *)
Fixpoint extract_pinned_in (ms : list json) : result (list json) :=
  match ms with
  | [] => Ok []
  | m :: rest =>
      b <- is_pinned m ;;
      r <- extract_pinned_in rest ;;
      Ok (if b then m :: r else r)
  end.

Definition extract_pinned (messages : json) : result json :=
  ms <- Py.iter messages ;;
  r <- extract_pinned_in ms ;;
  Ok (JList r).

(* ------------------------------------------------------------------ *)
(** ** Detection of the viewer's e-mail address *)
(* ------------------------------------------------------------------ *)

(** [email_count]: a dict from sender to count, in insertion order. *)
Definition tally := list (json * Z).

(** [email_count[email] = email_count.get(email, 0) + 1] *)
Fixpoint bump (email : json) (email_count : tally) : tally :=
  match email_count with
  | [] => [(email, 1%Z)]
  | (k, n) :: rest =>
      if Py.eqb k email then (k, (n + 1)%Z) :: rest
      else (k, n) :: bump email rest
  end.

(** The body of [for msg in messages[:200]].  An exception leaves the loop
    ([except: continue] moves to the next folder) with the counts made so
    far, since [email_count] is updated in place. *)
Fixpoint tally_messages (msgs : list json) (email_count : tally) : tally :=
  match msgs with
  | [] => email_count
  | msg :: rest =>
      match
        (creator <- Py.get msg (lit "creator") (JObj []) ;;
         Py.get creator (lit "email") JNull)
      with
      | Ok email =>
          if Py.truthy email then
            if Py.hashable email
            then tally_messages rest (bump email email_count)
            else email_count
          else tally_messages rest email_count
      | Raise _ => email_count
      end
  end.

Definition messages_json (groups_path : path) (folder : str) : path :=
  groups_path ++ [folder; lit "messages.json"].

(** One turn of [for folder in os.listdir(groups_path)]. *)
Definition tally_folder (fs : filesystem) (groups_path : path)
    (email_count : tally) (folder : str) : tally :=
  let msg_file := messages_json groups_path folder in
  if negb (exists_ fs msg_file) then email_count
  else
    match
      (data <- read_json fs msg_file ;;
       messages <- Py.get data MESSAGES (JList []) ;;
       first <- Py.slice_prefix messages 200 ;;
       Py.iter first)
    with
    | Ok msgs => tally_messages msgs email_count
    | Raise _ => email_count
    end.

(** [max(email_count, key=email_count.get)]: the first key, in insertion
    order, whose count is the largest. *)
Fixpoint max_key (best : json * Z) (email_count : tally) : json :=
  match email_count with
  | [] => fst best
  | (k, n) :: rest =>
      if (snd best <? n)%Z then max_key (k, n) rest else max_key best rest
  end.

(** Returns [JNull] for Python's [None]. *)
Definition detect_my_email (fs : filesystem) (groups_path : path) : json :=
  let email_count :=
    fold_left (tally_folder fs groups_path) (listdir fs groups_path) [] in
  match email_count with
  | [] => JNull
  | first :: rest => max_key first rest
  end.

(* ------------------------------------------------------------------ *)
(** ** Display names of conversations *)
(* ------------------------------------------------------------------ *)

Fixpoint dm_participant_in (msgs : list json) (my_email : json)
  : result json :=
  match msgs with
  | [] => Ok (JStr DELETED_USER)
  | msg :: rest =>
      creator <- Py.get msg (lit "creator") (JObj []) ;;
      email <- Py.get creator (lit "email") JNull ;;
      name <- Py.get creator (lit "name") (JStr UNKNOWN) ;;
      if Py.eqb email my_email then dm_participant_in rest my_email
      else if Py.truthy name && negb (Py.eqb name (JStr UNKNOWN))
           then Ok name
           else dm_participant_in rest my_email
  end.

Definition get_dm_participant (messages my_email : json) : result json :=
  ms <- Py.iter messages ;;
  dm_participant_in ms my_email.

(** Returns [JNull] for Python's [None]. *)
Definition get_space_title (fs : filesystem) (folder_path : path) : json :=
  let info_file := folder_path ++ [lit "group_info.json"] in
  if negb (exists_ fs info_file) then JNull
  else
    match (data <- read_json fs info_file ;;
           Py.get data (lit "name") JNull) with
    | Ok title => title
    | Raise _ => JNull
    end.

(* ------------------------------------------------------------------ *)
(** ** [textwrap.wrap] *)
(* ------------------------------------------------------------------ *)

(** [textwrap.wrap(text, width)] of the standard library, as
    [Lib/textwrap.py] of CPython 3.10 and later defines it, for a
    [TextWrapper] with the default options: [expand_tabs],
    [replace_whitespace], [drop_whitespace], [break_long_words] and
    [break_on_hyphens] set, [tabsize = 8], empty indents, no [max_lines].
    Widths are counted with [len], in characters. *)
Module Textwrap.

(** [str.expandtabs(8)] *)
Fixpoint expandtabs (col : Z) (s : str) : str :=
  match s with
  | [] => []
  | c :: r =>
      if (c =? 9)%N then
        let incr := (8 - col mod 8)%Z in
        repeat_char space incr ++ expandtabs (col + incr)%Z r
      else if ((c =? 10) || (c =? 13))%N then c :: expandtabs 0%Z r
      else c :: expandtabs (col + 1)%Z r
  end.

(** The characters of [_whitespace = '\t\n\x0b\x0c\r ']. *)
Definition is_whitespace (c : char) : bool :=
  ((9 <=? c) && (c <=? 13) || (c =? 32))%N.

(** [_munge_whitespace] *)
Definition munge_whitespace (text : str) : str :=
  map (fun c => if is_whitespace c then space else c) (expandtabs 0%Z text).

(** [chunk.strip() == ''] *)
Definition is_blank (chunk : str) : bool := forallb isspace chunk.

(** [chunk.rfind('-', 0, stop)] *)
Fixpoint rfind_from (c : char) (s : str) (i found : Z) : Z :=
  match s with
  | [] => found
  | x :: r => rfind_from c r (i + 1)%Z (if (x =? c)%N then i else found)
  end.

Definition rfind (c : char) (s : str) (stop : Z) : Z :=
  rfind_from c (slice_to s stop) 0%Z (-1)%Z.

Definition hyphen : char := 45%N.

(** The inner loop of [_wrap_chunks]:
    [while chunks: l = len(chunks[-1]); if cur_len + l <= width: ...].
    [chunks] is the reversed stack of the source read from its top, and
    [cur_line] is in reading order. *)
Fixpoint fill (width : Z) (cur_line : list str) (cur_len : Z)
    (chunks : list str) : list str * Z * list str :=
  match chunks with
  | [] => (cur_line, cur_len, [])
  | c :: rest =>
      if (cur_len + len c <=? width)%Z
      then fill width (cur_line ++ [c]) (cur_len + len c)%Z rest
      else (cur_line, cur_len, chunks)
  end.

(** [_handle_long_word], called with a non-empty stack. *)
Definition handle_long_word (chunks cur_line : list str) (cur_len width : Z)
  : list str * list str :=
  match chunks with
  | [] => (cur_line, chunks)
  | chunk :: rest =>
      let space_left := if (width <? 1)%Z then 1%Z else (width - cur_len)%Z in
      let stop :=
        if (space_left <? len chunk)%Z then
          let h := rfind hyphen chunk space_left in
          if (0 <? h)%Z
             && existsb (fun c => negb (c =? hyphen)%N) (slice_to chunk h)
          then (h + 1)%Z else space_left
        else space_left in
      (cur_line ++ [slice_to chunk stop], slice_from chunk stop :: rest)
  end.

(** The pieces of one turn of the outer loop of [_wrap_chunks]. *)

(** [if self.drop_whitespace and chunks[-1].strip() == '' and lines:
       del chunks[-1]] *)
Definition drop_leading_blank (have_lines : bool) (chunks : list str)
  : list str :=
  match chunks with
  | c :: rest => if is_blank c && have_lines then rest else chunks
  | [] => []
  end.

(** [if chunks and len(chunks[-1]) > width: self._handle_long_word(...)] *)
Definition cut_long (width : Z) (st : list str * Z * list str)
  : list str * list str :=
  let '(cur_line, cur_len, chunks) := st in
  match chunks with
  | c :: _ =>
      if (width <? len c)%Z
      then handle_long_word chunks cur_line cur_len width
      else (cur_line, chunks)
  | [] => (cur_line, chunks)
  end.

(** [if self.drop_whitespace and cur_line and cur_line[-1].strip() == '':
       del cur_line[-1]] *)
Definition drop_trailing_blank (cur_line : list str) : list str :=
  match rev cur_line with
  | l :: r => if is_blank l then rev r else cur_line
  | [] => []
  end.

(** [if cur_line: lines.append(indent + ''.join(cur_line))] *)
Definition emit (cur_line : list str) : option str :=
  match cur_line with
  | [] => None
  | _ => Some (concat cur_line)
  end.

(** One turn of the outer loop: the line it appends to [lines], if any, and
    the chunks left.  [have_lines] is the truth value of [lines]. *)
Definition wrap_step (width : Z) (have_lines : bool) (chunks : list str)
  : option str * list str :=
  let st := fill width [] 0%Z (drop_leading_blank have_lines chunks) in
  let r := cut_long width st in
  (emit (drop_trailing_blank (fst r)), snd r).

(** The measure that makes the outer loop terminate: every turn removes a
    chunk or shortens one. *)
Definition weight (chunks : list str) : nat :=
  fold_right (fun c n => S (length c + n)) 0%nat chunks.

Definition push_line (lines : list str) (l : option str) : list str :=
  match l with
  | Some x => lines ++ [x]
  | None => lines
  end.

Definition nonempty {A} (l : list A) : bool :=
  match l with [] => false | _ => true end.

Lemma fill_weight width chunks : forall cur_line cur_len,
  (weight (snd (fill width cur_line cur_len chunks)) <= weight chunks)%nat.
Proof.
  induction chunks as [|c rest IH]; intros cur_line cur_len; simpl.
  - lia.
  - destruct (cur_len + len c <=? width)%Z.
    + specialize (IH (cur_line ++ [c]) (cur_len + len c)%Z). lia.
    + simpl. lia.
Qed.

Lemma clamp_le (s : str) i : (clamp s i <= length s)%nat.
Proof. unfold clamp, len. lia. Qed.

Lemma handle_long_word_weight chunks cur_line cur_len width :
  (weight (snd (handle_long_word chunks cur_line cur_len width))
   <= weight chunks)%nat.
Proof.
  destruct chunks as [|chunk rest]; simpl; auto.
  unfold slice_from. rewrite length_skipn. lia.
Qed.

Lemma cut_long_weight width st :
  (weight (snd (cut_long width st)) <= weight (snd st))%nat.
Proof.
  destruct st as [[cur_line cur_len] chunks]. simpl.
  destruct chunks as [|c r]; [simpl; lia|].
  destruct (width <? len c)%Z; [apply handle_long_word_weight | simpl; lia].
Qed.

Lemma wrap_step_weight width have_lines c cs :
  (1 <= width)%Z ->
  (weight (snd (wrap_step width have_lines (c :: cs))) < weight (c :: cs))%nat.
Proof.
  intros Hw. unfold wrap_step. cbn [snd].
  assert (Hconsumed : forall cur_line cur_len,
    (weight (snd (cut_long width (fill width cur_line cur_len cs)))
     < weight (c :: cs))%nat).
  { intros cur_line cur_len.
    pose proof (cut_long_weight width (fill width cur_line cur_len cs)).
    pose proof (fill_weight width cs cur_line cur_len). simpl. lia. }
  unfold drop_leading_blank. destruct (is_blank c && have_lines).
  - apply Hconsumed.
  - cbn [fill]. destruct (Z.leb_spec (0 + len c) width) as [Hfit|Hlong].
    + apply Hconsumed.
    + unfold cut_long.
      replace (width <? len c)%Z with true by (symmetry; apply Z.ltb_lt; lia).
      unfold handle_long_word.
      replace (width <? 1)%Z with false by (symmetry; apply Z.ltb_ge; lia).
      set (stop := if (width - 0 <? len c)%Z then _ else _).
      assert (Hstop : (1 <= stop)%Z).
      { unfold stop. destruct (width - 0 <? len c)%Z; [|lia].
        destruct (0 <? rfind hyphen c (width - 0))%Z eqn:Hh; simpl; [|lia].
        apply Z.ltb_lt in Hh.
        destruct (existsb _ _); lia. }
      cbn [snd weight fold_right]. unfold slice_from. rewrite length_skipn.
      assert (1 <= clamp c stop)%nat.
      { unfold clamp, len in *. replace (stop <? 0)%Z with false
          by (symmetry; apply Z.ltb_ge; lia). lia. }
      pose proof (clamp_le c stop). lia.
Qed.

(** The outer loop of [_wrap_chunks], [while chunks: ...], entered with a
    positive [width] (the method raises [ValueError] otherwise, before the
    loop). *)
Equations? wrap_lines (width : Z) (lines chunks : list str) : list str
  by wf (weight chunks) lt :=
  wrap_lines width lines [] := lines;
  wrap_lines width lines (c :: cs) with Z_le_dec 1 width := {
    | right _ := lines
    | left Hw :=
        wrap_lines width
          (push_line lines (fst (wrap_step width (nonempty lines) (c :: cs))))
          (snd (wrap_step width (nonempty lines) (c :: cs))) }.
Proof. apply wrap_step_weight; assumption. Qed.

(** [_wrap_chunks] *)
Definition wrap_chunks (width : Z) (chunks : list str) : result (list str) :=
  if (width <=? 0)%Z then Raise ValueError
  else Ok (wrap_lines width [] chunks).

(** [_split] cuts the text with the regular expression [wordsep_re], whose
    character classes [\w] and [[^\d\W]] rest on the Unicode database: the
    result of [wordsep_re.split(text)] is a parameter. *)
Section Wrap.

Variable wordsep_split : str -> list str.

(** [_split]: [[c for c in chunks if c]] *)
Definition split_chunks (text : str) : list str :=
  filter nonempty (wordsep_split (munge_whitespace text)).

(** [textwrap.wrap(text, width)] *)
Definition wrap (text : str) (width : Z) : result (list str) :=
  wrap_chunks width (split_chunks text).

End Wrap.

(** [wordsep_re.split] on ASCII text, where [\w] is [[A-Za-z0-9_]] and a
    letter ([[^\d\W]]) is [[A-Za-z_]].  At each position the expression
    matches, in this order: a run of whitespace; a run of two or more
    hyphens between a word character or punctuation and a word character;
    or the shortest run of other characters that ends with a hyphen inside
    a word, before whitespace or the end, or before such a run of hyphens.
    The matches cover the text, so the pieces between them are empty. *)
Definition is_word_char (c : char) : bool :=
  ((48 <=? c) && (c <=? 57) || (65 <=? c) && (c <=? 90)
   || (97 <=? c) && (c <=? 122) || (c =? 95))%N.

Definition is_letter (c : char) : bool :=
  ((65 <=? c) && (c <=? 90) || (97 <=? c) && (c <=? 122) || (c =? 95))%N.

(** The class [word_punct]: a word character or one of the seven
    punctuation marks (exclamation mark, quotes, [&], [.], [,], [?]). *)
Definition is_word_punct (c : char) : bool :=
  (is_word_char c || (c =? 33) || (c =? 34) || (c =? 39) || (c =? 38)
   || (c =? 46) || (c =? 44) || (c =? 63))%N.

Fixpoint span (p : char -> bool) (s : str) : str * str :=
  match s with
  | c :: r => if p c then let '(a, b) := span p r in (c :: a, b) else ([], s)
  | [] => ([], [])
  end.

(** [(?=-{2,}\w)] *)
Definition dashes_then_word (s : str) : bool :=
  let '(run, rest) := span (fun c => (c =? hyphen)%N) s in
  (2 <=? length run)%nat
  && match rest with c :: _ => is_word_char c | [] => false end.

(** The hyphen of a hyphenated word: [before] is the text up to the hyphen,
    last character first, and [after] the text that follows it. *)
Definition hyphen_in_word (before after : str) : bool :=
  match before with
  | b1 :: b2 :: b3 =>
      (is_letter b1 && is_letter b2
       || is_letter b1 && (b2 =? hyphen)%N
          && match b3 with c :: _ => is_letter c | [] => false end)
  | _ => false
  end
  && match after with
     | a1 :: a2 :: a3 =>
         is_letter a1
         && (is_letter a2
             || (a2 =? hyphen)%N
                && match a3 with c :: _ => is_letter c | [] => false end)
     | _ => false
     end.

(** The third way to match, with [cand] the characters taken so far (last
    first) and [before] the text in front of them (last first): the chunk
    and the text left. *)
Fixpoint word_chunk (before cand s : str) : str * str :=
  let ends_here :=
    match s with
    | [] => true
    | c :: _ =>
        is_whitespace c
        || match cand with
           | b :: _ => is_word_punct b && dashes_then_word s
           | [] => false
           end
    end in
  match s with
  | c :: r =>
      if (c =? hyphen)%N && hyphen_in_word (cand ++ before) r
      then (rev (c :: cand), r)
      else if ends_here then (rev cand, s)
      else word_chunk before (c :: cand) r
  | [] => (rev cand, [])
  end.

(** One match at the head of [s], with [before] the text in front. *)
Definition next_chunk (before s : str) : str * str :=
  match s with
  | [] => ([], [])
  | c :: r =>
      if is_whitespace c then span is_whitespace s
      else if match before with b :: _ => is_word_punct b | [] => false end
              && dashes_then_word s
      then span (fun c => (c =? hyphen)%N) s
      else word_chunk before [c] r
  end.

Fixpoint chunks_from (fuel : nat) (before s : str) : list str :=
  match fuel, s with
  | _, [] => []
  | O, _ => [s]
  | S fuel', _ =>
      let '(chunk, rest) := next_chunk before s in
      chunk :: chunks_from fuel' (rev chunk ++ before) rest
  end.

Definition wordsep_ascii (text : str) : list str :=
  chunks_from (length text) [] text.

End Textwrap.

(* ------------------------------------------------------------------ *)
(** ** Timestamps *)
(* ------------------------------------------------------------------ *)

Record datetime : Set := {
  year : Z; month : Z; day : Z; hour : Z; minute : Z; second : Z
}.

(** [s.zfill(n)] on a string of digits. *)
Definition zfill (n : nat) (s : str) : str :=
  repeat 48%N (n - length s) ++ s.

(** [dt.strftime("%Y-%m-%d %H:%M")].  How [%Y] prints a year below 1000
    depends on the platform (the C library of Linux does not pad it, others
    give four digits): [format_year] is a parameter. *)
Definition strftime (format_year : Z -> str) (dt : datetime) : str :=
  format_year (year dt) ++ lit "-" ++ zfill 2 (str_of_Z (month dt))
  ++ lit "-" ++ zfill 2 (str_of_Z (day dt)) ++ lit " "
  ++ zfill 2 (str_of_Z (hour dt)) ++ lit ":" ++ zfill 2 (str_of_Z (minute dt)).

(** [%Y] with four digits. *)
Definition year4 (y : Z) : str := zfill 4 (str_of_Z y).

(* ------------------------------------------------------------------ *)
(** ** Padding, bubbles, transcript, catalogue *)
(* ------------------------------------------------------------------ *)

Section Viewer.

(** [wcwidth.wcswidth]: the number of terminal columns of a string, or [-1]
    when it holds a control character. *)
Variable wcswidth : str -> Z.

(** [wordsep_re.split] of [textwrap] (see [Textwrap.split_chunks]). *)
Variable wordsep_split : str -> list str.

(** [shutil.get_terminal_size().columns], read once when the module is
    loaded. *)
Variable TERMINAL_WIDTH : Z.

(** [datetime.strptime(s, "%A, %d %B %Y at %H:%M:%S UTC")]: the parsed
    date, or the [ValueError] of a string that does not match. *)
Variable strptime : str -> result datetime.

(** [%Y] of [strftime]. *)
Variable format_year : Z -> str.

(** [repr] of a value that is not a string, as an f-string prints it. *)
Variable py_repr : json -> str.

(** [int(TERMINAL_WIDTH * 0.55)].  The product is computed in binary
    floating point; for a width in [0, 100000) it is within 1e-10 above
    the exact value 55 * TERMINAL_WIDTH / 100, whose fractional part is a
    multiple of 0.05, so truncation gives the integer quotient. *)
Definition MAX_BUBBLE_WIDTH : Z := Z.quot (55 * TERMINAL_WIDTH) 100.

Definition pad_text (text : str) (width : Z) : str :=
  let extra := (width - wcswidth text)%Z in
  text ++ repeat_char space (Z.max 0 extra).

Definition clean_date (date_str : json) : result json :=
  match
    (match date_str with
     | JStr s => dt <- strptime s ;; Ok (JStr (strftime format_year dt))
     | _ => Raise TypeError
     end)
  with
  | Ok r => Ok r
  | Raise _ => Ok date_str
  end.

(** [f"│ {pad_text(line, MAX_BUBBLE_WIDTH)} │"] *)
Definition bubble_row (line : str) : str :=
  lit "│ " ++ pad_text line MAX_BUBBLE_WIDTH ++ lit " │".

Definition draw_bubble (text : str) (align : str) : result str :=
  wrapped <- Textwrap.wrap wordsep_split text MAX_BUBBLE_WIDTH ;;
  let top :=
    lit "┌" ++ concat (repeat (lit "─") (Z.to_nat (MAX_BUBBLE_WIDTH + 2)))
    ++ lit "┐" in
  let bottom :=
    lit "└" ++ concat (repeat (lit "─") (Z.to_nat (MAX_BUBBLE_WIDTH + 2)))
    ++ lit "┘" in
  let bubble_lines := [top] ++ map bubble_row wrapped ++ [bottom] in
  let bubble_text := join NL bubble_lines in
  if str_eqb align (lit "right") then
    let padding := (TERMINAL_WIDTH - (MAX_BUBBLE_WIDTH + 4))%Z in
    Ok (join NL (map (fun l => repeat_char space padding ++ l)
                     (splitlines bubble_text)))
  else Ok bubble_text.

(** [str(v)] inside an f-string. *)
Definition py_str (v : json) : str :=
  match v with
  | JStr s => s
  | _ => py_repr v
  end.

Definition PLACEHOLDER : str := lit "[Pinned message (non-text)]".

(** The body of [for msg in messages] in [format_chat]: the strings it
    appends to [output]. *)
Definition chat_block (msg my_email : json) : result (list str) :=
  creator <- Py.get msg (lit "creator") (JObj []) ;;
  name <- Py.get creator (lit "name") (JStr UNKNOWN) ;;
  email <- Py.get creator (lit "email") JNull ;;
  raw <- Py.get msg (lit "text") (JStr []) ;;
  stripped <- match raw with
              | JStr s => Ok (strip s)
              | _ => Raise AttributeError
              end ;;
  text <- match stripped with
          | [] => pinned <- is_pinned msg ;;
                  Ok (if pinned then Some PLACEHOLDER else None)
          | _ => Ok (Some stripped)
          end ;;
  match text with
  | None => Ok []
  | Some text =>
      created <- Py.get msg (lit "created_date") (JStr []) ;;
      date <- clean_date created ;;
      let mine := Py.eqb email my_email in
      let sender := if mine then JStr (lit "You") else name in
      let align := if mine then lit "right" else lit "left" in
      pinned <- is_pinned msg ;;
      let pin_icon := if pinned then lit "[PINNED] " else [] in
      let header := pin_icon ++ py_str sender ++ lit " • " ++ py_str date in
      let header :=
        if str_eqb align (lit "right") then rjust header TERMINAL_WIDTH
        else header in
      bubble <- draw_bubble text align ;;
      Ok [NL ++ header; bubble]
  end.

Fixpoint chat_blocks (msgs : list json) (my_email : json)
  : result (list str) :=
  match msgs with
  | [] => Ok []
  | msg :: rest =>
      b <- chat_block msg my_email ;;
      r <- chat_blocks rest my_email ;;
      Ok (b ++ r)
  end.

Definition BANNER_PINNED : str :=
  lit "📌 Showing ONLY pinned messages" ++ NL.
Definition BANNER_NAVIGATION : str :=
  lit "Navigation:" ++ NL ++ lit "   /PINNED → search pinned" ++ NL
  ++ lit "   q       → quit pager" ++ NL.

Definition format_chat (messages my_email : json) (pinned_only : bool)
  : result str :=
  let banner := if pinned_only then BANNER_PINNED else BANNER_NAVIGATION in
  msgs <- Py.iter messages ;;
  blocks <- chat_blocks msgs my_email ;;
  Ok (join NL (banner :: blocks)).

End Viewer.

(* ------------------------------------------------------------------ *)
(** ** The catalogue of conversations ([main], steps 4 to 6) *)
(* ------------------------------------------------------------------ *)

(** [if pinned_count > 0: name += f" (📌 {pinned_count})"] *)
Definition annotate (label : json) (pinned_count : Z) : result json :=
  if (0 <? pinned_count)%Z
  then Py.iadd_str label (lit " (📌 " ++ str_of_Z pinned_count ++ lit ")")
  else Ok label.

(** [f"DM  {name:<45} | {folder}"] and [f"SP  {title:<45} | {folder}"] *)
Definition entry (tag : str) (label : json) (folder : str) : result str :=
  padded <- Py.format_ljust label 45 ;;
  Ok (tag ++ padded ++ lit " | " ++ folder).

(** The body of [for folder in sorted(os.listdir(groups_path))]: the entry
    appended for the folder, if any.  [category] is the line selected in
    the first menu. *)
Definition catalog_step (fs : filesystem) (groups_path : path)
    (my_email : json) (category : str) (folder : str)
  : result (option str) :=
  let pinned_mode := startswith category (lit "PINNED") in
  let show_dm := startswith category (lit "DM") in
  let show_space := startswith category (lit "SPACE") in
  let folder_path := groups_path ++ [folder] in
  let msg_file := messages_json groups_path folder in
  if negb (exists_ fs msg_file) then Ok None
  else
    messages <- load_messages fs msg_file ;;
    pinned_count <- count_pinned messages ;;
    if pinned_mode && (pinned_count =? 0)%Z then Ok None
    else if (show_dm || pinned_mode) && startswith folder (lit "DM") then
      name <- get_dm_participant messages my_email ;;
      name <- annotate name pinned_count ;;
      e <- entry (lit "DM  ") name folder ;;
      Ok (Some e)
    else if (show_space || pinned_mode) && startswith folder (lit "Space") then
      let title := get_space_title fs folder_path in
      let title := if Py.truthy title then title else JStr folder in
      title <- annotate title pinned_count ;;
      e <- entry (lit "SP  ") title folder ;;
      Ok (Some e)
    else Ok None.

Fixpoint build_entries (fs : filesystem) (groups_path : path)
    (my_email : json) (category : str) (folders : list str)
  : result (list str) :=
  match folders with
  | [] => Ok []
  | folder :: rest =>
      e <- catalog_step fs groups_path my_email category folder ;;
      es <- build_entries fs groups_path my_email category rest ;;
      Ok (match e with Some e => e :: es | None => es end)
  end.

(** [entries] after step 5 of [main]. *)
Definition catalog (fs : filesystem) (groups_path : path)
    (my_email : json) (category : str) : result (list str) :=
  build_entries fs groups_path my_email category
    (sorted (listdir fs groups_path)).

(** [run_fzf] returns [selected.strip()] for the line [fzf] printed. *)
Definition run_fzf_result (printed : str) : str := strip printed.

(** [folder = selected.split("|")[-1].strip()] *)
Definition selected_folder (selected : str) : str :=
  strip (last (split 124%N selected) []).

(* ------------------------------------------------------------------ *)
(** ** Instances of the library parameters *)
(* ------------------------------------------------------------------ *)

(** An excerpt of [wcwidth].  Of the width table: [0] for NUL and for the
    zero-width joiner U+200D, [-1] for the other C0 and C1 control
    characters, [2] for the CJK unified ideographs U+4E00..U+9FFF, [1] for
    the printable characters of ASCII and Latin-1.  Code points outside
    these ranges are counted as [1] without claim.  Of the rules of
    [wcswidth]: a zero-width joiner is not measured, and neither is the
    character that follows it; the rules for variation selectors, regional
    indicators and combining marks concern code points outside the
    excerpt. *)
Module Wcwidth.

Definition ZWJ : char := 8205%N.

Definition wcwidth (c : char) : Z :=
  if (c =? 0)%N then 0%Z
  else if ((c <? 32) || (127 <=? c) && (c <? 160))%N then (-1)%Z
  else if (c =? ZWJ)%N then 0%Z
  else if ((19968 <=? c) && (c <=? 40959))%N then 2%Z
  else 1%Z.

(** [wcswidth]: the sum of the widths of the measured characters, or [-1]
    as soon as one of them has a negative width. *)
Fixpoint wcswidth_from (acc : Z) (s : str) : Z :=
  match s with
  | [] => acc
  | c :: r =>
      if (c =? ZWJ)%N then
        match r with
        | [] => acc
        | _ :: r' => wcswidth_from acc r'
        end
      else
        let w := wcwidth c in
        if (w <? 0)%Z then w else wcswidth_from (acc + w)%Z r
  end.

Definition wcswidth (s : str) : Z := wcswidth_from 0%Z s.

End Wcwidth.

(** [datetime.strptime(s, "%A, %d %B %Y at %H:%M:%S UTC")] in the C locale,
    on ASCII input.  The format is compiled to a regular expression matched
    without regard to case, in which every run of blanks of the format
    stands for [\s+]; the weekday is read and not compared with the date.
    Digits other than [0-9], which [\d] accepts, are not modelled. *)
Module Strptime.

Definition lower (c : char) : char :=
  if ((65 <=? c) && (c <=? 90))%N then (c + 32)%N else c.

(** Reads the lower-case word [w], whatever the case of the input. *)
Fixpoint word (w s : str) : option str :=
  match w, s with
  | [], _ => Some s
  | p :: w', c :: s' => if (lower c =? p)%N then word w' s' else None
  | _ :: _, [] => None
  end.

(** Reads one of [names]; gives its rank from 1. *)
Fixpoint one_of (names : list str) (rank : Z) (s : str) : option (Z * str) :=
  match names with
  | [] => None
  | n :: rest =>
      match word n s with
      | Some r => Some (rank, r)
      | None => one_of rest (rank + 1)%Z s
      end
  end.

(** [\s+] *)
Definition blanks (s : str) : option str :=
  match s with
  | c :: r => if isspace c then Some (lstrip r) else None
  | [] => None
  end.

(** The longest run of decimal digits at the head. *)
Fixpoint digits (s : str) : list Z * str :=
  match s with
  | c :: r =>
      if ((48 <=? c) && (c <=? 57))%N
      then let '(ds, rest) := digits r in (Z.of_N (c - 48) :: ds, rest)
      else ([], s)
  | [] => ([], [])
  end.

(** [%d]: [3[0-1]|[1-2]\d|0[1-9]|[1-9]| [1-9]] *)
Definition day_of (ds : list Z) : option Z :=
  match ds with
  | [d] => if (1 <=? d)%Z then Some d else None
  | [a; b] =>
      if ((a =? 3) && (b <=? 1) || (a =? 1) || (a =? 2)
          || (a =? 0) && (1 <=? b))%Z
      then Some (10 * a + b)%Z else None
  | _ => None
  end.

(** [%Y]: [\d\d\d\d] *)
Definition year_of (ds : list Z) : option Z :=
  match ds with
  | [a; b; c; d] => Some (1000 * a + 100 * b + 10 * c + d)%Z
  | _ => None
  end.

(** [%H]: [2[0-3]|[0-1]\d|\d] *)
Definition hour_of (ds : list Z) : option Z :=
  match ds with
  | [d] => Some d
  | [a; b] =>
      if ((a =? 2) && (b <=? 3) || (a <=? 1))%Z
      then Some (10 * a + b)%Z else None
  | _ => None
  end.

(** [%M]: [[0-5]\d|\d] *)
Definition minute_of (ds : list Z) : option Z :=
  match ds with
  | [d] => Some d
  | [a; b] => if (a <=? 5)%Z then Some (10 * a + b)%Z else None
  | _ => None
  end.

(** [%S]: [6[0-1]|[0-5]\d|\d] *)
Definition second_of (ds : list Z) : option Z :=
  match ds with
  | [d] => Some d
  | [a; b] =>
      if ((a =? 6) && (b <=? 1) || (a <=? 5))%Z
      then Some (10 * a + b)%Z else None
  | _ => None
  end.

Definition weekdays : list str :=
  [lit "monday"; lit "tuesday"; lit "wednesday"; lit "thursday";
   lit "friday"; lit "saturday"; lit "sunday"].

Definition months : list str :=
  [lit "january"; lit "february"; lit "march"; lit "april"; lit "may";
   lit "june"; lit "july"; lit "august"; lit "september"; lit "october";
   lit "november"; lit "december"].

Definition is_leap (y : Z) : bool :=
  ((y mod 4 =? 0) && (negb (y mod 100 =? 0) || (y mod 400 =? 0)))%Z.

Definition days_in_month (y m : Z) : Z :=
  if (m =? 2)%Z then (if is_leap y then 29 else 28)%Z
  else if ((m =? 4) || (m =? 6) || (m =? 9) || (m =? 11))%Z then 30%Z
  else 31%Z.

Definition obind {A B} (o : option A) (k : A -> option B) : option B :=
  match o with Some a => k a | None => None end.

Notation "x <-? c ;; k" := (obind c (fun x => k))
  (at level 61, c at next level, right associativity).

(** The match of the regular expression against the whole string. *)
Definition parse (s : str) : option datetime :=
  wd <-? one_of weekdays 1%Z s ;;
  s <-? word (lit ",") (snd wd) ;;
  s <-? blanks s ;;
  d <-? day_of (fst (digits s)) ;;
  s <-? blanks (snd (digits s)) ;;
  mo <-? one_of months 1%Z s ;;
  s <-? blanks (snd mo) ;;
  y <-? year_of (fst (digits s)) ;;
  s <-? blanks (snd (digits s)) ;;
  s <-? word (lit "at") s ;;
  s <-? blanks s ;;
  h <-? hour_of (fst (digits s)) ;;
  s <-? word (lit ":") (snd (digits s)) ;;
  mi <-? minute_of (fst (digits s)) ;;
  s <-? word (lit ":") (snd (digits s)) ;;
  sec <-? second_of (fst (digits s)) ;;
  s <-? blanks (snd (digits s)) ;;
  s <-? word (lit "utc") s ;;
  match s with
  | [] => Some {| year := y; month := fst mo; day := d;
                  hour := h; minute := mi; second := sec |}
  | _ => None
  end.

(** The constructor of [datetime] rejects the year 0, a day that the month
    does not have and a second above 59. *)
Definition strptime (s : str) : result datetime :=
  match parse s with
  | Some dt =>
      if ((1 <=? year dt) && (day dt <=? days_in_month (year dt) (month dt))
          && (second dt <=? 59))%Z
      then Ok dt else Raise ValueError
  | None => Raise ValueError
  end.

End Strptime.

(* ------------------------------------------------------------------ *)
(** ** Start of the script, and the archive to open *)
(* ------------------------------------------------------------------ *)

(** What the checks at start-up read: [sys.version_info] (its first two
    fields decide a comparison with a pair), [sys.version], whether the
    package [wcwidth] can be found, whether [fzf] is on the path, and
    [platform.system()]. *)
Record environment : Type := {
  version_info : Z * Z;
  version : str;
  wcwidth_installed : bool;
  fzf_on_path : bool;
  system : str
}.

(** [sys.version_info < (major, minor)] *)
Definition version_before (v : Z * Z) (major minor : Z) : bool :=
  ((fst v <? major) || (fst v =? major) && (snd v <? minor))%Z.

(** How a call ends: it returns, or [sys.exit(code)] ends the process. *)
Inductive ending : Set :=
  | Returns
  | Exits (code : Z).

(** [check_dependencies]: what each call of [print] writes (its arguments
    joined by a space, without the newline that ends it), in order, and how
    the function ends. *)
Definition check_dependencies (env : environment) : list str * ending :=
  let checking := lit "🔍 Checking requirements..." ++ NL in
  if version_before (version_info env) 3 8 then
    ([checking; lit "❌ Python 3.8+ is required.";
      lit "Your version: " ++ version env], Exits 1)
  else if negb (wcwidth_installed env) then
    ([checking; lit "❌ Missing Python package: wcwidth" ++ NL;
      lit "Install it using:" ++ NL; lit "   pip install wcwidth" ++ NL],
     Exits 1)
  else if negb (fzf_on_path env) then
    let os_name := system env in
    ([checking; lit "❌ Missing dependency: fzf" ++ NL]
     ++ (if str_eqb os_name (lit "Linux") then
           [lit "Install fzf using:";
            lit "   sudo apt install fzf     # Ubuntu/Debian";
            lit "   sudo dnf install fzf     # Fedora";
            lit "   sudo pacman -S fzf       # Arch"]
         else if str_eqb os_name (lit "Darwin") then
           [lit "Install fzf using:"; lit "   brew install fzf"]
         else if str_eqb os_name (lit "Windows") then
           [lit "Install fzf using:"; lit "   choco install fzf";
            lit "or use Winget:"; lit "   winget install fzf"]
         else
           [lit "Please install fzf manually from:";
            lit "   https://github.com/junegunn/fzf"]),
     Exits 1)
  else ([checking; lit "✅ All requirements satisfied." ++ NL], Returns).

(** The script before [main]: the file is compiled (its f-strings are a
    syntax error before Python 3.6), then its top level runs, where
    [from wcwidth import wcswidth] comes first and the call of
    [check_dependencies] last. *)
Inductive start : Type :=
  | SyntaxFails
  | ImportFails
  | Checked (report : list str * ending).

Definition run_script (env : environment) : start :=
  if version_before (version_info env) 3 6 then SyntaxFails
  else if negb (wcwidth_installed env) then ImportFails
  else Checked (check_dependencies env).

(** [s.endswith(suffix)] *)
Definition endswith (s suffix : str) : bool :=
  startswith (rev s) (rev suffix).

Definition is_takeout_zip (f : str) : bool :=
  startswith f (lit "takeout-") && endswith f (lit ".zip").

(** [zips.sort(key=..., reverse=True)]: names with the larger key first,
    names with equal keys in the order they had.  The key is the float of
    [os.path.getmtime], a rational number. *)
Fixpoint insert_newest (key : str -> QArith_base.Q) (x : str) (l : list str)
  : list str :=
  match l with
  | [] => [x]
  | y :: r =>
      if QArith_base.Qle_bool (key y) (key x) then x :: l
      else y :: insert_newest key x r
  end.

Definition sort_newest_first (key : str -> QArith_base.Q) (l : list str)
  : list str :=
  fold_right (insert_newest key) [] l.

(** Returns [None] or the path of the chosen archive. *)
Definition find_latest_takeout_zip (fs : filesystem)
    (getmtime : path -> QArith_base.Q) (downloads : path) : option path :=
  let zips := filter is_takeout_zip (listdir fs downloads) in
  match zips with
  | [] => None
  | _ =>
      match sort_newest_first (fun f => getmtime (downloads ++ [f])) zips with
      | first :: _ => Some (downloads ++ [first])
      | [] => None
      end
  end.

(* ------------------------------------------------------------------ *)
(** ** Opening the selected conversation ([main], steps 6 and 7) *)
(* ------------------------------------------------------------------ *)

Section Session.

Variable wcswidth : str -> Z.
Variable wordsep_split : str -> list str.
Variable TERMINAL_WIDTH : Z.
Variable strptime : str -> result datetime.
Variable format_year : Z -> str.
Variable py_repr : json -> str.

(** From the line [fzf] printed for the second menu to the text handed to
    the pager; [None] when nothing was selected. *)
Definition show_selected (fs : filesystem) (groups_path : path)
    (my_email : json) (category : str) (printed : str)
  : result (option str) :=
  let pinned_mode := startswith category (lit "PINNED") in
  let selected := run_fzf_result printed in
  match selected with
  | [] => Ok None
  | _ =>
      let folder := selected_folder selected in
      let msg_file := messages_json groups_path folder in
      messages <- load_messages fs msg_file ;;
      messages <- (if pinned_mode then extract_pinned messages
                   else Ok messages) ;;
      chat_text <- format_chat wcswidth wordsep_split TERMINAL_WIDTH strptime
                     format_year py_repr messages my_email pinned_mode ;;
      Ok (Some chat_text)
  end.

End Session.

(* ================================================================== *)
(** * Properties *)
(* ================================================================== *)

(** ** Vocabulary of the statements *)

(** A message record: a JSON object whose ["creator"], when present, is an
    object. *)
Definition is_record (msg : json) : bool :=
  match msg with
  | JObj kv =>
      match Py.lookup (lit "creator") kv with
      | Some (JObj _) | None => true
      | Some _ => false
      end
  | _ => false
  end.

Definition creator_items (msg : json) : list (str * json) :=
  match msg with
  | JObj kv =>
      match Py.lookup (lit "creator") kv with
      | Some (JObj c) => c
      | _ => []
      end
  | _ => []
  end.

(** The sender identity of a message ([None] when absent) and the sender
    name (["Unknown"] when absent). *)
Definition sender_email (msg : json) : json :=
  match Py.lookup (lit "email") (creator_items msg) with
  | Some e => e
  | None => JNull
  end.

Definition sender_name (msg : json) : json :=
  match Py.lookup (lit "name") (creator_items msg) with
  | Some n => n
  | None => JStr UNKNOWN
  end.

(** A name that is present (given and not empty) and is not ["Unknown"]. *)
Definition real_name (n : json) : bool :=
  Py.truthy n && negb (Py.eqb n (JStr UNKNOWN)).

(** The message is from somebody else than the viewer and names them. *)
Definition names_counterpart (my_email msg : json) : bool :=
  negb (Py.eqb (sender_email msg) my_email) && real_name (sender_name msg).

(** ** Sanity checks of the string functions *)

Example lit_pin : lit " (📌 " = [32; 40; 128204; 32]%N.
Proof. reflexivity. Qed.

Example splitlines_ex :
  splitlines (lit "ab" ++ [13; 10]%N ++ lit "c" ++ NL) = [lit "ab"; lit "c"].
Proof. reflexivity. Qed.

Example split_ex : split 124%N (lit "a|b|") = [lit "a"; lit "b"; []].
Proof. reflexivity. Qed.

Example sorted_ex :
  sorted [lit "b"; lit "ab"; lit "a"] = [lit "a"; lit "ab"; lit "b"].
Proof. reflexivity. Qed.

Example str_of_Z_ex :
  str_of_Z 120 = lit "120" /\ str_of_Z 0 = lit "0" /\ str_of_Z (-7) = lit "-7".
Proof. repeat split; reflexivity. Qed.

Example wrap_ex :
  Textwrap.wrap Textwrap.wordsep_ascii (lit "hello  wide world") 7
  = Ok [lit "hello"; lit "wide"; lit "world"].
Proof. reflexivity. Qed.

Example strptime_ex :
  Strptime.strptime (lit "Monday, 15 January 2024 at 10:30:45 UTC")
  = Ok {| year := 2024; month := 1; day := 15;
          hour := 10; minute := 30; second := 45 |}.
Proof. reflexivity. Qed.

(** ** Direct-message participant *)

Lemma get_creator msg :
  is_record msg = true ->
  Py.get msg (lit "creator") (JObj []) = Ok (JObj (creator_items msg)).
Proof.
  destruct msg as [| | | |l|kv]; simpl; try discriminate.
  destruct (Py.lookup (lit "creator") kv) as [[| | | | |c]|];
    try discriminate; reflexivity.
Qed.

Lemma dm_participant_in_find ms my_email :
  forallb is_record ms = true ->
  dm_participant_in ms my_email
  = Ok (match find (names_counterpart my_email) ms with
        | Some m => sender_name m
        | None => JStr DELETED_USER
        end).
Proof.
  induction ms as [|m ms IH]; simpl; [reflexivity|].
  intros H. apply andb_prop in H. destruct H as [Hm Hms].
  rewrite (get_creator _ Hm). cbn [bind Py.get].
  unfold names_counterpart, real_name, sender_email, sender_name.
  destruct (Py.eqb _ my_email); simpl; [apply IH, Hms|].
  destruct (Py.truthy _ && negb _); [reflexivity | apply IH, Hms].
Qed.

(** C6.  For a list of message records, [get_dm_participant] returns the
    name of the first message, in file order, whose sender identity differs
    from the viewer's and whose name is present and is not ["Unknown"];
    when there is none, and so for the empty list, it returns
    ["Deleted User"]. *)
Theorem get_dm_participant_first_counterpart (ms : list json) (my_email : json) :
  forallb is_record ms = true ->
  get_dm_participant (JList ms) my_email
  = Ok (match find (names_counterpart my_email) ms with
        | Some m => sender_name m
        | None => JStr DELETED_USER
        end)
  /\ get_dm_participant (JList []) my_email = Ok (JStr DELETED_USER).
Proof.
  intros H. split; [|reflexivity].
  unfold get_dm_participant. simpl. now apply dm_participant_in_find.
Qed.

Definition msg_from (email name : string) : json :=
  JObj [(lit "creator",
         JObj [(lit "name", JStr (lit name)); (lit "email", JStr (lit email))]);
        (lit "text", JStr (lit "hi"))].

Lemma get_dm_participant_first_counterpart_witness :
  get_dm_participant
    (JList [msg_from "a@x.com" "Alice"; msg_from "b@x.com" "Bob"])
    (JStr (lit "a@x.com"))
  = Ok (JStr (lit "Bob")).
Proof.
  exact (proj1 (get_dm_participant_first_counterpart
                  [msg_from "a@x.com" "Alice"; msg_from "b@x.com" "Bob"]
                  (JStr (lit "a@x.com")) eq_refl)).
Defined.

(** C9.  The result of [get_dm_participant] on a list of message records
    is never the empty string and never ["Unknown"]: it is ["Deleted User"]
    or the name of one of the messages, a name that is not empty and is
    not ["Unknown"]. *)
Theorem get_dm_participant_never_unknown (ms : list json) (my_email : json) :
  forallb is_record ms = true ->
  exists r, get_dm_participant (JList ms) my_email = Ok r
    /\ r <> JStr [] /\ r <> JStr UNKNOWN
    /\ (r = JStr DELETED_USER
        \/ exists m, In m ms /\ r = sender_name m
                     /\ Py.truthy r = true /\ Py.eqb r (JStr UNKNOWN) = false).
Proof.
  intros H. unfold get_dm_participant. simpl.
  rewrite (dm_participant_in_find _ _ H).
  destruct (find (names_counterpart my_email) ms) as [m|] eqn:F.
  - apply find_some in F. destruct F as [Hin Hc].
    unfold names_counterpart, real_name in Hc.
    apply andb_prop in Hc. destruct Hc as [_ Hc].
    apply andb_prop in Hc. destruct Hc as [Ht Hu].
    apply negb_true_iff in Hu.
    exists (sender_name m). split; [reflexivity|].
    repeat split.
    + intros E. rewrite E in Ht. discriminate.
    + intros E. rewrite E in Hu. discriminate.
    + right. exists m. auto.
  - exists (JStr DELETED_USER). repeat split; try discriminate. now left.
Qed.

Lemma get_dm_participant_never_unknown_witness :
  exists r,
    get_dm_participant
      (JList [msg_from "a@x.com" "Alice"; msg_from "c@x.com" "Unknown";
              msg_from "d@x.com" ""; msg_from "b@x.com" "Bob"])
      (JStr (lit "a@x.com")) = Ok r
    /\ r <> JStr [] /\ r <> JStr UNKNOWN.
Proof.
  destruct (get_dm_participant_never_unknown
              [msg_from "a@x.com" "Alice"; msg_from "c@x.com" "Unknown";
               msg_from "d@x.com" ""; msg_from "b@x.com" "Bob"]
              (JStr (lit "a@x.com")) eq_refl) as (r & E & N1 & N2 & _).
  exists r. auto.
Defined.

(** ** Pinned messages and the catalogue *)

(** The labels of a message, and the messages that carry a label of type
    ["PINNED"]. *)
Definition labels_of (msg : json) : list json :=
  match msg with
  | JObj kv =>
      match Py.lookup (lit "message_labels") kv with
      | Some (JList l) => l
      | _ => []
      end
  | _ => []
  end.

Definition is_pinned_label (l : json) : bool :=
  match l with
  | JObj kv =>
      match Py.lookup (lit "label_type") kv with
      | Some t => Py.eqb t (JStr PINNED)
      | None => false
      end
  | _ => false
  end.

Definition carries_pinned (msg : json) : bool :=
  existsb is_pinned_label (labels_of msg).

Definition is_object (v : json) : bool :=
  match v with JObj _ => true | _ => false end.

(** The message is an object whose ["message_labels"], when present, is a
    list of objects. *)
Definition has_label_list (msg : json) : bool :=
  match msg with
  | JObj kv =>
      match Py.lookup (lit "message_labels") kv with
      | Some (JList l) => forallb is_object l
      | None => true
      | Some _ => false
      end
  | _ => false
  end.

(** What [load_messages] takes from a parsed document. *)
Definition messages_of (doc : json) : json :=
  match doc with
  | JObj kv =>
      match Py.lookup MESSAGES kv with
      | Some messages => messages
      | None => JList []
      end
  | JList _ => doc
  | _ => JList []
  end.

Definition name_is_text (msg : json) : bool :=
  match sender_name msg with JStr _ => true | _ => false end.

Definition message_ok (msg : json) : bool :=
  is_record msg && has_label_list msg && name_is_text msg.

(** The messages of a conversation folder, when its file parses to a list
    of messages. *)
Definition conversation (fs : filesystem) (groups_path : path) (folder : str)
  : option (list json) :=
  match file fs (messages_json groups_path folder) with
  | Some (Ok doc) =>
      match messages_of doc with
      | JList ms => Some ms
      | _ => None
      end
  | _ => None
  end.

(** A folder of a well-formed archive: without a messages file, or with
    one that parses to a list of well-formed messages; the title of its
    metadata file, when there is one, is a string. *)
Definition conversation_ok (fs : filesystem) (groups_path : path)
    (folder : str) : bool :=
  match file fs (messages_json groups_path folder) with
  | None => true
  | Some _ =>
      match conversation fs groups_path folder with
      | Some ms => forallb message_ok ms
      | None => false
      end
      && match get_space_title fs (groups_path ++ [folder]) with
         | JStr _ => true
         | t => negb (Py.truthy t)
         end
  end.

(** The number of pinned messages of a folder. *)
Definition pinned_in (fs : filesystem) (groups_path : path) (folder : str)
  : Z :=
  match conversation fs groups_path folder with
  | Some ms => Z.of_nat (length (filter carries_pinned ms))
  | None => 0%Z
  end.

Definition PINNED_ONLY : str := lit "PINNED ONLY".

(** The folders that the pinned-only catalogue is to list. *)
Definition listed_pinned_only (fs : filesystem) (groups_path : path)
    (folder : str) : bool :=
  exists_ fs (messages_json groups_path folder)
  && (0 <? pinned_in fs groups_path folder)%Z
  && (startswith folder (lit "DM") || startswith folder (lit "Space")).

(** [e] is the catalogue line of [folder] in the pinned-only catalogue: the
    tag of its kind, a label that ends with the count of pinned messages,
    padded to 45 characters, and the folder name. *)
Definition pinned_entry (fs : filesystem) (groups_path : path)
    (folder e : str) : Prop :=
  exists base : str,
    e = (if startswith folder (lit "DM") then lit "DM  " else lit "SP  ")
        ++ ljust (base ++ lit " (📌 "
                  ++ str_of_Z (pinned_in fs groups_path folder) ++ lit ")") 45
        ++ lit " | " ++ folder.

Lemma any_pinned_spec labels :
  forallb is_object labels = true ->
  any_pinned labels = Ok (existsb is_pinned_label labels).
Proof.
  induction labels as [|l ls IH]; simpl; [reflexivity|].
  intros H. apply andb_prop in H. destruct H as [Hl Hls].
  destruct l as [| | | | |kv]; try discriminate. simpl.
  destruct (Py.lookup (lit "label_type") kv) as [t|]; simpl.
  - destruct (Py.eqb t (JStr PINNED)); [reflexivity | now apply IH].
  - now apply IH.
Qed.

Lemma is_pinned_spec msg :
  has_label_list msg = true -> is_pinned msg = Ok (carries_pinned msg).
Proof.
  unfold is_pinned, carries_pinned, labels_of.
  destruct msg as [| | | | |kv]; simpl; try discriminate.
  destruct (Py.lookup (lit "message_labels") kv) as [[| | | |l|]|];
    simpl; try discriminate; auto.
  apply any_pinned_spec.
Qed.

Lemma count_pinned_in_spec ms :
  forallb has_label_list ms = true ->
  count_pinned_in ms = Ok (Z.of_nat (length (filter carries_pinned ms))).
Proof.
  induction ms as [|m ms IH]; cbn [count_pinned_in filter forallb];
    [reflexivity|].
  intros H. apply andb_prop in H. destruct H as [Hm Hms].
  rewrite (is_pinned_spec _ Hm), (IH Hms). cbn [bind].
  destruct (carries_pinned m); cbn [length]; f_equal; lia.
Qed.

Lemma load_messages_of fs p :
  load_messages fs p = (doc <- read_json fs p ;; Ok (messages_of doc)).
Proof.
  unfold load_messages. destruct (read_json fs p) as [doc|e]; simpl; auto.
  destruct doc as [| | | | |kv]; simpl; auto.
  destruct (Py.lookup MESSAGES kv); reflexivity.
Qed.

Lemma forallb_weaken {A} (p q : A -> bool) (l : list A) :
  (forall x, p x = true -> q x = true) ->
  forallb p l = true -> forallb q l = true.
Proof.
  intros Hpq H. rewrite forallb_forall in *. auto.
Qed.

Lemma message_ok_parts msg :
  message_ok msg = true ->
  is_record msg = true /\ has_label_list msg = true /\ name_is_text msg = true.
Proof.
  unfold message_ok. intros H.
  apply andb_prop in H. destruct H as [H H3].
  apply andb_prop in H. tauto.
Qed.

(** On well-formed messages the participant is a string. *)
Lemma dm_participant_text ms my_email :
  forallb message_ok ms = true ->
  exists s, get_dm_participant (JList ms) my_email = Ok (JStr s).
Proof.
  intros H. unfold get_dm_participant. cbn [Py.iter bind].
  rewrite dm_participant_in_find
    by (revert H; apply forallb_weaken; intros x Hx;
        apply message_ok_parts in Hx; tauto).
  destruct (find (names_counterpart my_email) ms) as [m|] eqn:F.
  - apply find_some in F. destruct F as [Hin _].
    rewrite forallb_forall in H. specialize (H m Hin).
    apply message_ok_parts in H. destruct H as (_ & _ & H).
    unfold name_is_text in H.
    destruct (sender_name m); try discriminate. eauto.
  - eauto.
Qed.

Lemma catalog_step_pinned_only fs groups_path my_email folder :
  conversation_ok fs groups_path folder = true ->
  if listed_pinned_only fs groups_path folder
  then exists e,
      catalog_step fs groups_path my_email PINNED_ONLY folder = Ok (Some e)
      /\ pinned_entry fs groups_path folder e
  else catalog_step fs groups_path my_email PINNED_ONLY folder = Ok None.
Proof.
  unfold conversation_ok, listed_pinned_only, pinned_entry, pinned_in,
    conversation, catalog_step, exists_.
  change (startswith PINNED_ONLY (lit "PINNED")) with true.
  change (startswith PINNED_ONLY (lit "DM")) with false.
  change (startswith PINNED_ONLY (lit "SPACE")) with false.
  rewrite load_messages_of. unfold read_json.
  destruct (file fs (messages_json groups_path folder)) as [[doc|e]|];
    cbn [negb andb orb bind]; try discriminate; [|reflexivity].
  destruct (messages_of doc) as [| | | |ms|]; try discriminate.
  intros H. apply andb_prop in H. destruct H as [Hms Htitle].
  unfold count_pinned. cbn [Py.iter bind].
  rewrite count_pinned_in_spec
    by (revert Hms; apply forallb_weaken; intros x Hx;
        apply message_ok_parts in Hx; tauto).
  cbn [bind].
  set (n := Z.of_nat (length (filter carries_pinned ms))).
  destruct (Z.eqb_spec n 0) as [E0|N0].
  - rewrite E0. reflexivity.
  - assert (Hpos : (0 <? n)%Z = true) by (apply Z.ltb_lt; unfold n in *; lia).
    rewrite Hpos. cbn [andb].
    destruct (startswith folder (lit "DM")) eqn:DM; cbn [orb].
    + destruct (dm_participant_text ms my_email Hms) as [s Hs].
      rewrite Hs. cbn [bind]. unfold annotate. rewrite Hpos.
      cbn [Py.iadd_str bind entry Py.format_ljust].
      eexists. split; [reflexivity|]. exists s. reflexivity.
    + destruct (startswith folder (lit "Space")) eqn:SP.
      * set (title := get_space_title fs (groups_path ++ [folder])) in *.
        assert (Ht : exists s,
          (if Py.truthy title then title else JStr folder) = JStr s).
        { clearbody title.
          destruct title as [|b|z|t|l|kv];
            try (apply negb_true_iff in Htitle; rewrite Htitle; eauto).
          destruct (Py.truthy (JStr t)); eauto. }
        destruct Ht as [s Hs]. rewrite Hs.
        unfold annotate. rewrite Hpos.
        cbn [Py.iadd_str bind entry Py.format_ljust].
        eexists. split; [reflexivity|]. exists s. reflexivity.
      * reflexivity.
Qed.

Lemma In_insert_sorted x y l : In y (insert_sorted x l) <-> y = x \/ In y l.
Proof.
  induction l as [|z l IH]; simpl.
  - intuition.
  - destruct (str_leb x z); simpl; rewrite ?IH; intuition.
Qed.

Lemma In_sorted y l : In y (sorted l) <-> In y l.
Proof.
  induction l as [|x l IH]; simpl; [tauto|].
  rewrite In_insert_sorted, IH. intuition.
Qed.

Lemma build_entries_pinned_only fs groups_path my_email folders :
  forallb (conversation_ok fs groups_path) folders = true ->
  exists entries,
    build_entries fs groups_path my_email PINNED_ONLY folders = Ok entries
    /\ Forall2 (pinned_entry fs groups_path)
         (filter (listed_pinned_only fs groups_path) folders) entries.
Proof.
  induction folders as [|folder rest IH]; cbn [build_entries filter forallb].
  - exists []. split; [reflexivity | constructor].
  - intros H. apply andb_prop in H. destruct H as [Hok Hrest].
    destruct (IH Hrest) as (es & Ees & Fes).
    pose proof (catalog_step_pinned_only fs groups_path my_email folder Hok)
      as Hstep.
    destruct (listed_pinned_only fs groups_path folder).
    + destruct Hstep as (e & Ee & He). rewrite Ee, Ees. cbn [bind].
      exists (e :: es). split; [reflexivity | now constructor].
    + rewrite Hstep, Ees. cbn [bind]. exists es. now split.
Qed.

(** C7.  In a well-formed archive, [pinned_count] of a conversation is the
    number of its messages that carry a label of type ["PINNED"], which
    are those [is_pinned] accepts; and under the filter PINNED ONLY the
    catalogue holds, in the order of the folder names, one line for each
    folder with a messages file whose name starts with [DM] or [Space] and
    whose [pinned_count] is positive, and no other line: a conversation
    with [pinned_count = 0] is skipped. *)
Theorem pinned_only_catalog (fs : filesystem) (groups_path : path)
    (my_email : json) :
  forallb (conversation_ok fs groups_path) (listdir fs groups_path) = true ->
  (forall folder ms,
      In folder (listdir fs groups_path) ->
      conversation fs groups_path folder = Some ms ->
      load_messages fs (messages_json groups_path folder) = Ok (JList ms)
      /\ (forall m, In m ms -> is_pinned m = Ok (carries_pinned m))
      /\ count_pinned (JList ms)
         = Ok (Z.of_nat (length (filter carries_pinned ms))))
  /\ exists entries,
      catalog fs groups_path my_email PINNED_ONLY = Ok entries
      /\ Forall2 (pinned_entry fs groups_path)
           (filter (listed_pinned_only fs groups_path)
                   (sorted (listdir fs groups_path)))
           entries.
Proof.
  intros H. split.
  - intros folder ms Hin Hconv.
    rewrite forallb_forall in H. specialize (H folder Hin).
    unfold conversation_ok in H. rewrite Hconv in H.
    unfold conversation in Hconv. rewrite load_messages_of. unfold read_json.
    destruct (file fs (messages_json groups_path folder)) as [[doc|e]|];
      try discriminate.
    destruct (messages_of doc) as [| | | |ms'|] eqn:M; try discriminate.
    injection Hconv as ->. cbn [bind]. rewrite M.
    apply andb_prop in H. destruct H as [Hms _].
    assert (Hl : forallb has_label_list ms = true)
      by (revert Hms; apply forallb_weaken; intros x Hx;
          apply message_ok_parts in Hx; tauto).
    split; [reflexivity|]. split.
    + intros m Hm. apply is_pinned_spec.
      rewrite forallb_forall in Hl. auto.
    + unfold count_pinned. cbn [Py.iter bind]. now apply count_pinned_in_spec.
  - unfold catalog. apply build_entries_pinned_only.
    rewrite forallb_forall in *. intros x Hx. apply H, In_sorted, Hx.
Qed.

(** An archive with a conversation without pinned message, two with pinned
    messages, and a folder that is not a conversation. *)
Definition plain_msg (email name text : string) : json :=
  JObj [(lit "creator",
         JObj [(lit "name", JStr (lit name)); (lit "email", JStr (lit email))]);
        (lit "text", JStr (lit text))].

Definition pinned_msg (email name text : string) : json :=
  JObj [(lit "creator",
         JObj [(lit "name", JStr (lit name)); (lit "email", JStr (lit email))]);
        (lit "text", JStr (lit text));
        (lit "message_labels",
         JList [JObj [(lit "label_type", JStr PINNED)]])].

Definition demo_files : list (path * result json) :=
  [([lit "Groups"; lit "DM C1"; lit "messages.json"],
    Ok (JObj [(MESSAGES, JList [plain_msg "a@x.com" "Alice" "hello";
                                plain_msg "b@x.com" "Bob" "hi"])]));
   ([lit "Groups"; lit "DM C2"; lit "messages.json"],
    Ok (JList [pinned_msg "c@x.com" "Carol" "keep this";
               plain_msg "a@x.com" "Alice" "ok";
               pinned_msg "a@x.com" "Alice" ""]));
   ([lit "Groups"; lit "Space S1"; lit "messages.json"],
    Ok (JObj [(MESSAGES, JList [pinned_msg "b@x.com" "Bob" "agenda"])]));
   ([lit "Groups"; lit "Space S1"; lit "group_info.json"],
    Ok (JObj [(lit "name", JStr (lit "Team"))]))].

Fixpoint find_file (files : list (path * result json)) (p : path)
  : option (result json) :=
  match files with
  | [] => None
  | (q, r) :: rest => if path_eqb p q then Some r else find_file rest p
  end.

Definition demo_fs : filesystem :=
  {| listdir := fun _ => [lit "Space S1"; lit "DM C2"; lit "notes"; lit "DM C1"];
     file := find_file demo_files |}.

Example demo_catalog :
  catalog demo_fs [lit "Groups"] (JStr (lit "a@x.com")) PINNED_ONLY
  = Ok [lit "DM  Carol (📌 2)                                   | DM C2";
        lit "SP  Team (📌 1)                                    | Space S1"].
Proof. vm_compute. reflexivity. Qed.

Lemma pinned_only_catalog_witness :
  exists entries,
    catalog demo_fs [lit "Groups"] (JStr (lit "a@x.com")) PINNED_ONLY
    = Ok entries
    /\ Forall2 (pinned_entry demo_fs [lit "Groups"])
         [lit "DM C2"; lit "Space S1"] entries.
Proof.
  exact (proj2 (pinned_only_catalog demo_fs [lit "Groups"]
                  (JStr (lit "a@x.com")) eq_refl)).
Defined.

(** ** From a catalogue line back to the folder *)

Definition bar : char := 124%N.

Lemma lstrip_app_stop a c b :
  isspace c = false -> lstrip (a ++ c :: b) = lstrip a ++ c :: b.
Proof.
  intros Hc. induction a as [|x a IH]; simpl.
  - now rewrite Hc.
  - destruct (isspace x); [exact IH | reflexivity].
Qed.

Lemma rstrip_app_stop a c b :
  isspace c = false -> rstrip (a ++ c :: b) = a ++ c :: rstrip b.
Proof.
  intros Hc. unfold rstrip.
  rewrite rev_app_distr. simpl. rewrite <- app_assoc. simpl.
  rewrite (lstrip_app_stop _ _ _ Hc), rev_app_distr. simpl.
  rewrite rev_involutive, <- app_assoc. reflexivity.
Qed.

Lemma lstrip_suffix s : exists p, s = p ++ lstrip s.
Proof.
  induction s as [|c s [p IH]]; simpl.
  - now exists [].
  - destruct (isspace c).
    + exists (c :: p). simpl. now f_equal.
    + now exists [].
Qed.

Lemma lstrip_length s : (length (lstrip s) <= length s)%nat.
Proof.
  destruct (lstrip_suffix s) as [p E]. rewrite E at 2.
  rewrite length_app. lia.
Qed.

Lemma rstrip_length s : (length (rstrip s) <= length s)%nat.
Proof.
  unfold rstrip. rewrite length_rev.
  pose proof (lstrip_length (rev s)) as H. now rewrite length_rev in H.
Qed.

Lemma lstrip_fixed s : length (lstrip s) = length s -> lstrip s = s.
Proof.
  intros H. destruct (lstrip_suffix s) as [p E].
  assert (length p = 0%nat).
  { apply (f_equal (@length _)) in E. rewrite length_app in E. lia. }
  destruct p; [symmetry; exact E | discriminate].
Qed.

Lemma rstrip_In c s : In c (rstrip s) -> In c s.
Proof.
  unfold rstrip. rewrite <- in_rev. intros H.
  destruct (lstrip_suffix (rev s)) as [p E].
  apply in_rev. rewrite E. apply in_or_app. now right.
Qed.

(** A string that [strip] leaves alone is left alone by [lstrip] and by
    [rstrip]. *)
Lemma strip_fixed s :
  strip s = s -> lstrip s = s /\ lstrip (rev s) = rev s.
Proof.
  unfold strip. intros H.
  pose proof (rstrip_length (lstrip s)) as H1.
  pose proof (lstrip_length s) as H2.
  rewrite H in H1.
  assert (E : lstrip s = s) by (apply lstrip_fixed; lia).
  split; [exact E|].
  rewrite E in H. unfold rstrip in H.
  apply (f_equal (@rev _)) in H. now rewrite rev_involutive in H.
Qed.

Lemma strip_after_space folder :
  strip folder = folder -> strip (rstrip (space :: folder)) = folder.
Proof.
  intros H. destruct (strip_fixed _ H) as [HL HR].
  destruct (rev folder) as [|c r] eqn:E.
  - assert (folder = []) as ->
      by (apply (f_equal (@rev _)) in E; now rewrite rev_involutive in E).
    reflexivity.
  - assert (Hc : isspace c = false).
    { simpl in HR. destruct (isspace c); [|reflexivity].
      pose proof (lstrip_length r) as Hl. rewrite HR in Hl. simpl in Hl. lia. }
    assert (R : rstrip (space :: folder) = space :: folder).
    { assert (F : folder = rev r ++ [c])
        by (apply (f_equal (@rev _)) in E; rewrite rev_involutive in E;
            exact E).
      rewrite F. change (space :: rev r ++ [c]) with ((space :: rev r) ++ [c]).
      now rewrite rstrip_app_stop. }
    rewrite R. unfold strip. simpl lstrip. exact H.
Qed.

Lemma split_no_sep c s : ~ In c s -> split c s = [s].
Proof.
  induction s as [|x s IH]; simpl; [reflexivity|].
  intros H. destruct (N.eqb_spec x c) as [->|N]; [tauto|].
  rewrite IH by tauto. reflexivity.
Qed.

Lemma split_nonempty c s : split c s <> [].
Proof.
  destruct s as [|x s]; simpl; [discriminate|].
  destruct (x =? c)%N; [discriminate|].
  destruct (split c s); discriminate.
Qed.

Lemma split_app_two c a b :
  (2 <= length (split c (a ++ c :: b)))%nat.
Proof.
  induction a as [|x a IH]; simpl.
  - rewrite N.eqb_refl. pose proof (split_nonempty c b).
    destruct (split c b); simpl; [tauto | lia].
  - destruct (x =? c)%N; simpl; [lia|].
    destruct (split c (a ++ c :: b)); simpl in *; lia.
Qed.

Lemma last_split_app c a b d :
  last (split c (a ++ c :: b)) d = last (split c b) d.
Proof.
  induction a as [|x a IH]; simpl.
  - rewrite N.eqb_refl.
    pose proof (split_nonempty c b). destruct (split c b); tauto.
  - pose proof (split_app_two c a b) as H2.
    destruct (split c (a ++ c :: b)) as [|h [|h2 t]]; simpl in H2; try lia.
    destruct (x =? c)%N; exact IH.
Qed.

(** C10, amended.  Taking what follows the last ["|"] of a catalogue line
    and stripping it gives back the folder name, provided the folder name
    holds no ["|"] and has no leading or trailing whitespace; the label
    may be any string. *)
Theorem selected_folder_round_trip (tag label folder : str) :
  ~ In bar folder ->
  strip folder = folder ->
  exists e,
    entry tag (JStr label) folder = Ok e
    /\ selected_folder (run_fzf_result e) = folder.
Proof.
  intros Hbar Hstrip. unfold entry. cbn [Py.format_ljust bind].
  eexists. split; [reflexivity|].
  unfold selected_folder, run_fzf_result.
  change (lit " | ") with (space :: bar :: [space]).
  set (a := tag ++ ljust label 45 ++ [space]).
  replace (tag ++ ljust label 45 ++ (space :: bar :: [space]) ++ folder)
    with (a ++ bar :: (space :: folder))
    by (unfold a; rewrite <- !app_assoc; reflexivity).
  unfold strip at 2.
  rewrite lstrip_app_stop, rstrip_app_stop by reflexivity.
  rewrite last_split_app, split_no_sep.
  - simpl last. now apply strip_after_space.
  - intros Hin. apply rstrip_In in Hin. destruct Hin as [Hin|Hin];
      [discriminate | tauto].
Qed.

Lemma selected_folder_round_trip_witness :
  exists e,
    entry (lit "DM  ") (JStr (lit "Bob | Carol (📌 2)")) (lit "DM 4f") = Ok e
    /\ selected_folder (run_fzf_result e) = lit "DM 4f".
Proof.
  apply (selected_folder_round_trip (lit "DM  ") (lit "Bob | Carol (📌 2)")
           (lit "DM 4f")).
  - vm_compute. intuition discriminate.
  - reflexivity.
Defined.

(** C10 as first stated fails: a label without ["|"] and a folder name
    without leading or trailing whitespace do not suffice when the folder
    name itself holds a ["|"]. *)
Lemma selected_folder_bar_in_folder :
  ~ (forall label folder e : str,
        ~ In bar label ->
        strip folder = folder ->
        entry (lit "DM  ") (JStr label) folder = Ok e ->
        selected_folder (run_fzf_result e) = folder).
Proof.
  intros H.
  specialize (H (lit "Bob") (lit "DM|x") _
                ltac:(vm_compute; intuition discriminate) eq_refl eq_refl).
  vm_compute in H. discriminate.
Qed.

(** ** Loading a messages file *)

Lemma load_messages_parsed fs p doc :
  read_json fs p = Ok doc -> load_messages fs p = Ok (messages_of doc).
Proof. intros H. rewrite load_messages_of, H. reflexivity. Qed.

Lemma load_messages_raises fs p e :
  read_json fs p = Raise e -> load_messages fs p = Raise e.
Proof. intros H. unfold load_messages. now rewrite H. Qed.

(** The two shapes of a messages file give the same messages. *)
Lemma messages_of_shapes ms :
  messages_of (JObj [(MESSAGES, JList ms)]) = messages_of (JList ms).
Proof. reflexivity. Qed.

(** An archive whose only conversation has a messages file that is not
    valid JSON (an empty file, say). *)
Definition broken_fs : filesystem :=
  {| listdir := fun _ => [lit "DM 1"];
     file := find_file [([lit "Groups"; lit "DM 1"; lit "messages.json"],
                         Raise JSONDecodeError)] |}.

(** C1 fails on the code.  [load_messages] has no handler: on a file that
    is not valid JSON it raises [JSONDecodeError], on an absent file
    [FileNotFoundError], and the exception leaves the catalogue loop of
    [main]; and when ["messages"] holds something else than a list, that
    value is returned as it is. *)
Theorem load_messages_propagates :
  load_messages broken_fs [lit "Groups"; lit "DM 1"; lit "messages.json"]
  = Raise JSONDecodeError
  /\ load_messages broken_fs [lit "Groups"; lit "DM 2"; lit "messages.json"]
     = Raise FileNotFoundError
  /\ catalog broken_fs [lit "Groups"] (JStr (lit "a@x.com")) (lit "DM")
     = Raise JSONDecodeError
  /\ messages_of (JObj [(MESSAGES, JNum 5)]) = JNum 5.
Proof. repeat split; reflexivity. Qed.

(** ** Detection of the viewer *)

Definition bob_messages : list json :=
  [plain_msg "b@x.com" "Bob" "hi"; plain_msg "b@x.com" "Bob" "there";
   plain_msg "a@x.com" "Alice" "hello"].

(** The same conversation stored as a bare list and as an object. *)
Definition bare_list_fs : filesystem :=
  {| listdir := fun _ => [lit "DM 1"];
     file := find_file [([lit "Groups"; lit "DM 1"; lit "messages.json"],
                         Ok (JList bob_messages))] |}.

Definition object_fs : filesystem :=
  {| listdir := fun _ => [lit "DM 1"];
     file := find_file [([lit "Groups"; lit "DM 1"; lit "messages.json"],
                         Ok (JObj [(MESSAGES, JList bob_messages)]))] |}.

(** C3 fails on the code.  [detect_my_email] calls [data.get] on the
    document: a messages file that holds a bare list raises
    [AttributeError] there, the handler skips the folder, and no sender of
    it is counted, although [load_messages] reads the same file. *)
Theorem detect_my_email_skips_bare_list :
  load_messages bare_list_fs [lit "Groups"; lit "DM 1"; lit "messages.json"]
  = Ok (JList bob_messages)
  /\ detect_my_email bare_list_fs [lit "Groups"] = JNull
  /\ detect_my_email object_fs [lit "Groups"] = JStr (lit "b@x.com").
Proof. repeat split; reflexivity. Qed.

(** What the function does find: nothing in an archive without messages
    file, and the first of the most frequent senders otherwise. *)
Lemma detect_my_email_no_files fs groups_path :
  (forall folder, In folder (listdir fs groups_path) ->
     exists_ fs (messages_json groups_path folder) = false) ->
  detect_my_email fs groups_path = JNull.
Proof.
  unfold detect_my_email. intros H.
  assert (E : fold_left (tally_folder fs groups_path)
                (listdir fs groups_path) [] = []).
  { induction (listdir fs groups_path) as [|f l IH]; simpl; [reflexivity|].
    unfold tally_folder at 2. rewrite (H f) by now left.
    simpl. apply IH. intros g Hg. apply H. now right. }
  now rewrite E.
Qed.

(** ** Timestamps *)

Section Timestamps.

Variable strptime : str -> result datetime.
Variable format_year : Z -> str.

Lemma strftime_nonempty dt : strftime format_year dt <> [].
Proof.
  unfold strftime. intros E. apply (f_equal (@length _)) in E.
  rewrite !length_app in E. simpl in E. lia.
Qed.

(** C4.  [clean_date] never raises.  On a string it returns the date
    reformatted as [%Y-%m-%d %H:%M] exactly when [strptime] accepts the
    string with the format ["%A, %d %B %Y at %H:%M:%S UTC"], and the
    string itself otherwise; the result of a non-empty string is never
    empty. *)
Theorem clean_date_total (s : str) :
  clean_date strptime format_year (JStr s)
  = Ok (JStr match strptime s with
             | Ok dt => strftime format_year dt
             | Raise _ => s
             end)
  /\ (s <> [] -> clean_date strptime format_year (JStr s) <> Ok (JStr [])).
Proof.
  unfold clean_date. destruct (strptime s) as [dt|e]; cbn [bind].
  - split; [reflexivity|]. intros _ E. injection E as E.
    now apply strftime_nonempty in E.
  - split; [reflexivity|]. intros H E. injection E as E. tauto.
Qed.

(** Other values than strings come back unchanged as well. *)
Lemma clean_date_not_str v :
  (forall s, v <> JStr s) -> clean_date strptime format_year v = Ok v.
Proof.
  intros H. destruct v; try reflexivity. now destruct (H s).
Qed.

End Timestamps.

(** With four digits for the year, the reformatted date of a [datetime]
    has the sixteen characters of [YYYY-MM-DD HH:MM]. *)
Lemma digits_bound (w n : nat) (z : Z) :
  (0 <= z < Z.of_nat n)%Z ->
  forallb (fun k => (length (str_of_Z (Z.of_nat k)) <=? w)%nat) (seq 0 n)
  = true ->
  (length (str_of_Z z) <= w)%nat.
Proof.
  intros Hz H. rewrite forallb_forall in H.
  specialize (H (Z.to_nat z)). rewrite Z2Nat.id in H by lia.
  apply Nat.leb_le, H, in_seq. lia.
Qed.

Lemma two_digits z :
  (0 <= z < 100)%Z -> length (zfill 2 (str_of_Z z)) = 2%nat.
Proof.
  intros Hz. unfold zfill. rewrite length_app, repeat_length.
  pose proof (digits_bound 2 (Z.to_nat 100) z ltac:(lia)
                ltac:(vm_compute; reflexivity)).
  cbv [char] in *. lia.
Qed.

Lemma four_digits z :
  (0 <= z < 10000)%Z -> length (year4 z) = 4%nat.
Proof.
  intros Hz. unfold year4, zfill. rewrite length_app, repeat_length.
  pose proof (digits_bound 4 (Z.to_nat 10000) z ltac:(lia)
                ltac:(vm_compute; reflexivity)).
  cbv [char] in *. lia.
Qed.

Lemma strftime_length dt :
  (1 <= year dt <= 9999)%Z -> (1 <= month dt <= 12)%Z ->
  (1 <= day dt <= 31)%Z -> (0 <= hour dt <= 23)%Z ->
  (0 <= minute dt <= 59)%Z ->
  length (strftime year4 dt) = 16%nat.
Proof.
  intros. unfold strftime. rewrite !length_app.
  rewrite four_digits, !two_digits by lia. reflexivity.
Qed.

Lemma clean_date_total_witness :
  clean_date Strptime.strptime year4
    (JStr (lit "Monday, 15 January 2024 at 10:30:45 UTC"))
  = Ok (JStr (lit "2024-01-15 10:30"))
  /\ clean_date Strptime.strptime year4 (JStr (lit "yesterday"))
     <> Ok (JStr []).
Proof.
  split.
  - exact (proj1 (clean_date_total Strptime.strptime year4
                    (lit "Monday, 15 January 2024 at 10:30:45 UTC"))).
  - apply (proj2 (clean_date_total Strptime.strptime year4 (lit "yesterday"))).
    discriminate.
Defined.

Example clean_date_passes_through :
  clean_date Strptime.strptime year4 (JStr (lit "31 Feb, 10:30"))
  = Ok (JStr (lit "31 Feb, 10:30"))
  /\ clean_date Strptime.strptime year4
       (JStr (lit "Friday, 31 February 2024 at 10:30:45 UTC"))
     = Ok (JStr (lit "Friday, 31 February 2024 at 10:30:45 UTC")).
Proof. split; reflexivity. Qed.

(** ** Padding *)

Section Padding.

Variable wcswidth : str -> Z.

Lemma pad_text_appends text width :
  pad_text wcswidth text width
  = text ++ repeat space (Z.to_nat (width - wcswidth text)).
Proof.
  unfold pad_text, repeat_char. do 2 f_equal. lia.
Qed.

(** No truncation: a string at least as wide as the target is returned
    unchanged. *)
Lemma pad_text_unchanged text width :
  (width <= wcswidth text)%Z -> pad_text wcswidth text width = text.
Proof.
  intros H. rewrite pad_text_appends.
  replace (Z.to_nat (width - wcswidth text)) with 0%nat by lia.
  apply app_nil_r.
Qed.

End Padding.

(** Characters whose width the excerpt of the table gives exactly and that
    are measured one by one: printable ASCII, the printable part of Latin-1
    (the soft hyphen U+00AD apart) and the CJK unified ideographs. *)
Definition measured (c : char) : bool :=
  ((32 <=? c) && (c <? 127)
   || (160 <=? c) && (c <=? 255) && negb (c =? 173)
   || (19968 <=? c) && (c <=? 40959))%N.

Definition printable_ascii (c : char) : bool := ((32 <=? c) && (c <? 127))%N.

Ltac width_cases :=
  unfold measured, printable_ascii, Wcwidth.wcwidth, Wcwidth.ZWJ in *;
  repeat match goal with
         | |- context [(?a =? ?b)%N] => destruct (N.eqb_spec a b)
         | |- context [(?a <=? ?b)%N] => destruct (N.leb_spec a b)
         | |- context [(?a <? ?b)%N] => destruct (N.ltb_spec a b)
         | H : context [(?a =? ?b)%N] |- _ => destruct (N.eqb_spec a b)
         | H : context [(?a <=? ?b)%N] |- _ => destruct (N.leb_spec a b)
         | H : context [(?a <? ?b)%N] |- _ => destruct (N.ltb_spec a b)
         end;
  cbn [andb orb negb] in *; try discriminate; try lia.

Lemma measured_width c :
  measured c = true ->
  (c =? Wcwidth.ZWJ)%N = false /\ (1 <= Wcwidth.wcwidth c <= 2)%Z.
Proof. intros H. split; width_cases. Qed.


Lemma wcswidth_from_spaces n : forall acc,
  Wcwidth.wcswidth_from acc (repeat space n) = (acc + Z.of_nat n)%Z.
Proof.
  induction n as [|n IH]; intros acc; [simpl; lia|].
  cbn [repeat Wcwidth.wcswidth_from].
  change (space =? Wcwidth.ZWJ)%N with false.
  change (Wcwidth.wcwidth space) with 1%Z. cbn [Z.ltb Z.compare].
  rewrite IH. lia.
Qed.

(** On measured characters the width of a string is the sum of the widths
    of its characters, and what follows is measured from there. *)
Lemma wcswidth_from_measured s : forall acc t,
  forallb measured s = true ->
  (acc <= Wcwidth.wcswidth_from acc s)%Z
  /\ Wcwidth.wcswidth_from acc (s ++ t)
     = Wcwidth.wcswidth_from (Wcwidth.wcswidth_from acc s) t.
Proof.
  induction s as [|c s IH]; intros acc t H; [simpl; split; [lia|reflexivity]|].
  cbn [forallb] in H. apply andb_true_iff in H. destruct H as [Hc Hs].
  destruct (measured_width c Hc) as [Hz Hw].
  cbn [app Wcwidth.wcswidth_from]. rewrite Hz.
  replace (Wcwidth.wcwidth c <? 0)%Z with false
    by (symmetry; apply Z.ltb_ge; lia).
  destruct (IH (acc + Wcwidth.wcwidth c)%Z t Hs) as [Hle E].
  split; [lia | exact E].
Qed.

Lemma wcswidth_measured_spaces s n :
  forallb measured s = true ->
  (0 <= Wcwidth.wcswidth s)%Z
  /\ Wcwidth.wcswidth (s ++ repeat space n)
     = (Wcwidth.wcswidth s + Z.of_nat n)%Z.
Proof.
  intros H. unfold Wcwidth.wcswidth.
  destruct (wcswidth_from_measured s 0%Z (repeat space n) H) as [Hle E].
  split; [exact Hle|]. rewrite E. apply wcswidth_from_spaces.
Qed.


Definition BEL : str := [7%N].

(** C5 fails on the code.  [wcswidth] returns [-1] for a string that holds
    a control character, and [pad_text] does not look for it: for the
    string BEL and the width 5 it appends six spaces, the width of the
    result is still [-1], below the target although that of the input is,
    and padding the result again appends six more spaces. *)
Theorem pad_text_control_character :
  (Wcwidth.wcswidth BEL <= 5)%Z
  /\ pad_text Wcwidth.wcswidth BEL 5 = BEL ++ repeat space 6
  /\ (Wcwidth.wcswidth (pad_text Wcwidth.wcswidth BEL 5) < 5)%Z
  /\ pad_text Wcwidth.wcswidth (pad_text Wcwidth.wcswidth BEL 5) 5
     <> pad_text Wcwidth.wcswidth BEL 5.
Proof.
  split; [apply Z.leb_le; reflexivity|].
  split; [reflexivity|].
  split; [apply Z.ltb_lt; reflexivity|].
  vm_compute. discriminate.
Qed.

(** ** The transcript *)

(** The message has no displayable text: its ["text"] is absent, or a
    string of blanks. *)
Definition no_text (msg : json) : bool :=
  match msg with
  | JObj kv =>
      match Py.lookup (lit "text") kv with
      | Some (JStr s) => match strip s with [] => true | _ => false end
      | None => true
      | Some _ => false
      end
  | _ => false
  end.

Section Transcript.

Variable wcswidth : str -> Z.
Variable wordsep_split : str -> list str.
Variable TERMINAL_WIDTH : Z.
Variable strptime : str -> result datetime.
Variable format_year : Z -> str.
Variable py_repr : json -> str.

#[local] Abbreviation WIDTH := (MAX_BUBBLE_WIDTH TERMINAL_WIDTH).
#[local] Abbreviation bubble :=
  (draw_bubble wcswidth wordsep_split TERMINAL_WIDTH).
#[local] Abbreviation block :=
  (chat_block wcswidth wordsep_split TERMINAL_WIDTH strptime format_year
     py_repr).
#[local] Abbreviation blocks :=
  (chat_blocks wcswidth wordsep_split TERMINAL_WIDTH strptime format_year
     py_repr).
#[local] Abbreviation format :=
  (format_chat wcswidth wordsep_split TERMINAL_WIDTH strptime format_year
     py_repr).

Lemma clean_date_ok v :
  exists d, clean_date strptime format_year v = Ok d.
Proof.
  unfold clean_date. destruct v as [| | |s| |]; eauto.
  destruct (strptime s); simpl; eauto.
Qed.

Lemma draw_bubble_ok text align :
  (1 <= WIDTH)%Z -> exists b, bubble text align = Ok b.
Proof.
  intros H. unfold draw_bubble, Textwrap.wrap, Textwrap.wrap_chunks.
  replace (WIDTH <=? 0)%Z with false by (symmetry; apply Z.leb_gt; lia).
  cbn [bind]. destruct (str_eqb align (lit "right")); eauto.
Qed.

Lemma chat_blocks_app pre post my_email :
  blocks (pre ++ post) my_email
  = (a <- blocks pre my_email ;;
     b <- blocks post my_email ;;
     Ok (a ++ b)).
Proof.
  induction pre as [|m pre IH]; cbn [app chat_blocks].
  - cbn [bind]. destruct (blocks post my_email); reflexivity.
  - rewrite IH. destruct (block m my_email) as [bm|]; cbn [bind]; auto.
    destruct (blocks pre my_email) as [a|]; cbn [bind]; auto.
    destruct (blocks post my_email) as [b|]; cbn [bind]; auto.
    now rewrite app_assoc.
Qed.

(** C8.  A message without displayable text and without label of type
    ["PINNED"] adds nothing to the document of [format_chat]: the document
    is that of the list without the message.  A message without displayable
    text that carries such a label is rendered as a header marked
    [[PINNED]] and the bubble of the text ["[Pinned message (non-text)]"]. *)
Theorem format_chat_non_text (msg my_email : json) (pre post : list json)
    (pinned_only : bool) :
  is_record msg = true ->
  has_label_list msg = true ->
  no_text msg = true ->
  (1 <= WIDTH)%Z ->
  if carries_pinned msg
  then exists (k : nat) (rest b : str),
      bubble PLACEHOLDER (if Py.eqb (sender_email msg) my_email
                          then lit "right" else lit "left") = Ok b
      /\ block msg my_email
         = Ok [NL ++ repeat space k ++ lit "[PINNED] " ++ rest; b]
      /\ format (JList [msg]) my_email pinned_only
         = Ok (join NL [if pinned_only then BANNER_PINNED
                        else BANNER_NAVIGATION;
                        NL ++ repeat space k ++ lit "[PINNED] " ++ rest; b])
  else block msg my_email = Ok []
       /\ format (JList (pre ++ msg :: post)) my_email pinned_only
          = format (JList (pre ++ post)) my_email pinned_only.
Proof.
  intros Hrec Hlab Htext Hwidth.
  assert (Hblock :
    block msg my_email
    = if carries_pinned msg
      then (created <- Py.get msg (lit "created_date") (JStr []) ;;
            date <- clean_date strptime format_year created ;;
            let mine := Py.eqb (sender_email msg) my_email in
            let sender := if mine then JStr (lit "You") else sender_name msg in
            let align := if mine then lit "right" else lit "left" in
            let header := lit "[PINNED] " ++ py_str py_repr sender
                          ++ lit " • " ++ py_str py_repr date in
            let header := if str_eqb align (lit "right")
                          then rjust header TERMINAL_WIDTH else header in
            b <- bubble PLACEHOLDER align ;;
            Ok [NL ++ header; b])
      else Ok []).
  { unfold chat_block. rewrite (get_creator _ Hrec). cbn [bind Py.get].
    rewrite (is_pinned_spec _ Hlab).
    unfold sender_email, sender_name.
    destruct msg as [| | | | |kv]; try discriminate.
    cbn [no_text] in Htext. cbn [Py.get bind].
    destruct (Py.lookup (lit "text") kv) as [[| | |s| |]|];
      try discriminate; cbn [bind].
    - destruct (strip s); [|discriminate]. cbn [bind].
      destruct (carries_pinned (JObj kv)); reflexivity.
    - change (strip []) with (@nil char). cbn [bind].
      destruct (carries_pinned (JObj kv)); reflexivity. }
  destruct (carries_pinned msg).
  - set (mine := Py.eqb (sender_email msg) my_email) in *.
    set (align := if mine then lit "right" else lit "left") in *.
    destruct (draw_bubble_ok PLACEHOLDER align Hwidth) as [b Hb].
    destruct msg as [| | | | |kv]; try discriminate.
    cbn [Py.get bind] in Hblock.
    destruct (clean_date_ok
                match Py.lookup (lit "created_date") kv with
                | Some v => v
                | None => JStr []
                end) as [d Hd].
    rewrite Hd in Hblock. cbn [bind] in Hblock. cbv zeta in Hblock.
    fold align in Hblock. rewrite Hb in Hblock. cbn [bind] in Hblock.
    set (h := lit "[PINNED] " ++ _) in Hblock.
    assert (Hh : exists k rest,
      (if str_eqb align (lit "right") then rjust h TERMINAL_WIDTH else h)
      = repeat space k ++ lit "[PINNED] " ++ rest).
    { destruct (str_eqb align (lit "right")).
      - eexists _, _. unfold rjust, repeat_char, h. reflexivity.
      - exists 0%nat. eexists. unfold h. reflexivity. }
    destruct Hh as (k & rest & Hh). rewrite Hh in Hblock.
    exists k, rest, b. split; [exact Hb|]. split; [exact Hblock|].
    unfold format_chat. cbn [Py.iter bind chat_blocks].
    rewrite Hblock. reflexivity.
  - split; [exact Hblock|].
    unfold format_chat. cbn [Py.iter bind].
    rewrite !chat_blocks_app. cbn [chat_blocks]. rewrite Hblock.
    cbn [bind app]. f_equal.
    destruct (blocks pre my_email); cbn [bind]; auto.
    destruct (blocks post my_email); reflexivity.
Qed.

End Transcript.

(** [repr] of the values without parts; lists and dicts are not modelled. *)
Definition repr_atom (v : json) : str :=
  match v with
  | JNull => lit "None"
  | JBool true => lit "True"
  | JBool false => lit "False"
  | JNum z => str_of_Z z
  | _ => lit "..."
  end.

Definition sticker_msg (labels : list json) : json :=
  JObj [(lit "creator",
         JObj [(lit "name", JStr (lit "Carol"));
               (lit "email", JStr (lit "c@x.com"))]);
        (lit "created_date",
         JStr (lit "Monday, 15 January 2024 at 10:30:45 UTC"));
        (lit "text", JStr (lit "  "));
        (lit "message_labels", JList labels)].

Definition pinned_label : json := JObj [(lit "label_type", JStr PINNED)].

Lemma format_chat_non_text_witness :
  (exists (k : nat) (rest b : str),
      chat_block Wcwidth.wcswidth Textwrap.wordsep_ascii 60 Strptime.strptime
        year4 repr_atom (sticker_msg [pinned_label]) (JStr (lit "a@x.com"))
      = Ok [NL ++ repeat space k ++ lit "[PINNED] " ++ rest; b])
  /\ format_chat Wcwidth.wcswidth Textwrap.wordsep_ascii 60 Strptime.strptime
       year4 repr_atom
       (JList [plain_msg "a@x.com" "Alice" "hello"; sticker_msg [];
               plain_msg "b@x.com" "Bob" "hi"])
       (JStr (lit "a@x.com")) false
     = format_chat Wcwidth.wcswidth Textwrap.wordsep_ascii 60 Strptime.strptime
         year4 repr_atom
         (JList [plain_msg "a@x.com" "Alice" "hello";
                 plain_msg "b@x.com" "Bob" "hi"])
         (JStr (lit "a@x.com")) false.
Proof.
  assert (Hw : (1 <= MAX_BUBBLE_WIDTH 60)%Z) by (apply Z.leb_le; reflexivity).
  pose proof (format_chat_non_text Wcwidth.wcswidth Textwrap.wordsep_ascii 60
                Strptime.strptime year4 repr_atom
                (sticker_msg [pinned_label]) (JStr (lit "a@x.com")) [] []
                false eq_refl eq_refl eq_refl Hw) as H1.
  pose proof (format_chat_non_text Wcwidth.wcswidth Textwrap.wordsep_ascii 60
                Strptime.strptime year4 repr_atom
                (sticker_msg []) (JStr (lit "a@x.com"))
                [plain_msg "a@x.com" "Alice" "hello"]
                [plain_msg "b@x.com" "Bob" "hi"]
                false eq_refl eq_refl eq_refl Hw) as H2.
  change (carries_pinned (sticker_msg [pinned_label])) with true in H1.
  change (carries_pinned (sticker_msg [])) with false in H2.
  cbv iota in H1, H2. cbn [app] in H2.
  split.
  - destruct H1 as (k & rest & b & _ & H & _). exists k, rest, b. exact H.
  - exact (proj2 H2).
Defined.

Example format_chat_pinned_sticker :
  format_chat Wcwidth.wcswidth Textwrap.wordsep_ascii 60 Strptime.strptime
    year4 repr_atom (JList [sticker_msg [pinned_label]])
    (JStr (lit "a@x.com")) false
  = Ok (join NL
          [lit "Navigation:";
           lit "   /PINNED → search pinned";
           lit "   q       → quit pager";
           [];
           [];
           lit "[PINNED] Carol • 2024-01-15 10:30";
           lit "┌───────────────────────────────────┐";
           lit "│ [Pinned message (non-text)]       │";
           lit "└───────────────────────────────────┘"]).
Proof. vm_compute. reflexivity. Qed.

(** ** Wrapping *)



















(** ** What wrapping keeps *)




















(** ** The bubble *)

Definition frame_top (width : Z) : str :=
  lit "┌" ++ concat (repeat (lit "─") (Z.to_nat (width + 2))) ++ lit "┐".

Definition frame_bottom (width : Z) : str :=
  lit "└" ++ concat (repeat (lit "─") (Z.to_nat (width + 2))) ++ lit "┘".







Section Bubble.

Variable wcswidth : str -> Z.
Variable wordsep_split : str -> list str.
Variable TERMINAL_WIDTH : Z.

#[local] Abbreviation WIDTH := (MAX_BUBBLE_WIDTH TERMINAL_WIDTH).


End Bubble.


(** A text with a word of 21 characters, a tab and a line feed. *)
Definition long_word_text : str :=
  lit "see the incomprehensibilities  of" ++ [9%N] ++ lit "tabs and"
  ++ NL ++ lit "lines".


Example draw_bubble_long_word_text :
  draw_bubble Wcwidth.wcswidth Textwrap.wordsep_ascii 20 long_word_text
    (lit "left")
  = Ok (join NL [lit "┌─────────────┐";
                 lit "│ see the inc │";
                 lit "│ omprehensib │";
                 lit "│ ilities  of │";
                 lit "│ tabs and    │";
                 lit "│ lines       │";
                 lit "└─────────────┘"]).
Proof. vm_compute. reflexivity. Qed.

(** A hyphenated word is two chunks: it is broken after the hyphen although
    it would fit on a line of its own. *)
Example wrap_breaks_after_hyphen :
  Textwrap.wrap Textwrap.wordsep_ascii (lit "aaa well-known") 10
  = Ok [lit "aaa well-"; lit "known"].
Proof. vm_compute. reflexivity. Qed.

Example draw_bubble_left :
  draw_bubble Wcwidth.wcswidth Textwrap.wordsep_ascii 20
    (lit "the quick brown fox") (lit "left")
  = Ok (join NL [lit "┌─────────────┐";
                 lit "│ the quick   │";
                 lit "│ brown fox   │";
                 lit "└─────────────┘"]).
Proof. vm_compute. reflexivity. Qed.

Example draw_bubble_right :
  draw_bubble Wcwidth.wcswidth Textwrap.wordsep_ascii 20
    (lit "the quick brown fox") (lit "right")
  = Ok (join NL [lit "     ┌─────────────┐";
                 lit "     │ the quick   │";
                 lit "     │ brown fox   │";
                 lit "     └─────────────┘"]).
Proof. vm_compute. reflexivity. Qed.


Example draw_bubble_long_word :
  draw_bubble Wcwidth.wcswidth Textwrap.wordsep_ascii 8
    (lit "abcdefghij") (lit "left")
  = Ok (join NL [lit "┌──────┐";
                 lit "│ abcd │";
                 lit "│ efgh │";
                 lit "│ ij   │";
                 lit "└──────┘"]).
Proof. vm_compute. reflexivity. Qed.

(** Wrapping counts characters while padding counts columns: two
    ideographs and one, each word within four columns, stay on one line of
    four characters and seven columns, and the row is not padded. *)
Example draw_bubble_wide_characters :
  Textwrap.wrap Textwrap.wordsep_ascii [26085; 26412; 32; 35486]%N
    (MAX_BUBBLE_WIDTH 8) = Ok [[26085; 26412; 32; 35486]%N]
  /\ Wcwidth.wcswidth [26085; 26412; 32; 35486]%N = 7%Z
  /\ pad_text Wcwidth.wcswidth [26085; 26412; 32; 35486]%N
       (MAX_BUBBLE_WIDTH 8) = [26085; 26412; 32; 35486]%N.
Proof. repeat split; vm_compute; reflexivity. Qed.

(** After a zero-width joiner [wcswidth] does not measure the next
    character, here the first space of the padding: the line of an
    ideograph and a joiner, two characters and two columns, is padded to
    three columns of the four. *)
Example draw_bubble_joiner :
  Textwrap.wrap Textwrap.wordsep_ascii [26085; 8205]%N (MAX_BUBBLE_WIDTH 8)
  = Ok [[26085; 8205]%N]
  /\ Wcwidth.wcswidth [26085; 8205]%N = 2%Z
  /\ Wcwidth.wcswidth
       (pad_text Wcwidth.wcswidth [26085; 8205]%N (MAX_BUBBLE_WIDTH 8))
     = 3%Z.
Proof. repeat split; vm_compute; reflexivity. Qed.

(* ================================================================== *)
(** * Further properties of the program *)
(* ================================================================== *)

(** ** Whom [detect_my_email] elects *)

Lemma str_eqb_eq a b : str_eqb a b = true <-> a = b.
Proof.
  unfold str_eqb. destruct (list_eq_dec N.eq_dec a b); split;
    intros; congruence.
Qed.

Lemma str_eqb_refl a : str_eqb a a = true.
Proof. now apply str_eqb_eq. Qed.

Lemma eqb_str k e : Py.eqb k (JStr e) = true <-> k = JStr e.
Proof.
  destruct k; simpl; try (split; intros; discriminate).
  rewrite str_eqb_eq. split; intros; congruence.
Qed.

(** The sender of the message is given as a string, or not at all. *)
Definition sender_ok (msg : json) : bool :=
  is_record msg
  && match sender_email msg with
     | JStr _ | JNull => true
     | _ => false
     end.

Definition email_of (msg : json) : option str :=
  match sender_email msg with
  | JStr (c :: s) => Some (c :: s)
  | _ => None
  end.

(** The sender identities of a list of messages, in order. *)
Fixpoint emails (ms : list json) : list str :=
  match ms with
  | [] => []
  | m :: rest =>
      match email_of m with
      | Some e => e :: emails rest
      | None => emails rest
      end
  end.

(** The identities that the scan of a folder counts: those of the first
    200 messages of a file that holds an object with a list under
    ["messages"]; any other file gives none. *)
Definition counted (fs : filesystem) (groups_path : path) (folder : str)
  : list str :=
  match file fs (messages_json groups_path folder) with
  | Some (Ok (JObj kv)) =>
      match Py.lookup MESSAGES kv with
      | Some (JList ms) => emails (firstn 200 ms)
      | _ => []
      end
  | _ => []
  end.

(** In such a file, the first 200 messages are records whose sender is a
    string or absent. *)
Definition scannable (fs : filesystem) (groups_path : path) (folder : str)
  : bool :=
  match file fs (messages_json groups_path folder) with
  | Some (Ok (JObj kv)) =>
      match Py.lookup MESSAGES kv with
      | Some (JList ms) => forallb sender_ok (firstn 200 ms)
      | _ => true
      end
  | _ => true
  end.

Fixpoint occurrences (e : str) (l : list str) : Z :=
  match l with
  | [] => 0
  | x :: r => (if str_eqb x e then 1 else 0) + occurrences e r
  end%Z.

(** The count [email_count] holds for a string. *)
Fixpoint tally_count (t : tally) (e : str) : Z :=
  match t with
  | [] => 0%Z
  | (k, n) :: r => if Py.eqb k (JStr e) then n else tally_count r e
  end.

Definition bump_all (l : list str) (t : tally) : tally :=
  fold_left (fun t e => bump (JStr e) t) l t.

Lemma tally_messages_emails ms : forall t,
  forallb sender_ok ms = true ->
  tally_messages ms t = bump_all (emails ms) t.
Proof.
  induction ms as [|m ms IH]; intros t H; [reflexivity|].
  cbn [forallb] in H. apply andb_prop in H. destruct H as [Hm Hms].
  unfold sender_ok in Hm. apply andb_prop in Hm. destruct Hm as [Hrec Hem].
  cbn [tally_messages emails]. rewrite (get_creator _ Hrec).
  cbn [bind Py.get]. unfold email_of. fold (sender_email m).
  destruct (sender_email m) as [| | |[|c s]| |]; try discriminate;
    cbn [Py.truthy Py.hashable]; now apply IH.
Qed.

Lemma tally_folder_counted fs groups_path t folder :
  scannable fs groups_path folder = true ->
  tally_folder fs groups_path t folder
  = bump_all (counted fs groups_path folder) t.
Proof.
  unfold scannable, counted, tally_folder, exists_, read_json.
  destruct (file fs (messages_json groups_path folder)) as [[doc|e]|];
    cbn [negb bind]; try reflexivity.
  destruct doc as [| | | |l|kv]; cbn [Py.get bind]; try reflexivity.
  destruct (Py.lookup MESSAGES kv) as [[| | |s|ms|kv']|];
    cbn [Py.slice_prefix Py.iter bind]; try reflexivity.
  - destruct (firstn 200 s); reflexivity.
  - intros H. now apply tally_messages_emails.
Qed.

Lemma bump_all_app l1 l2 t : bump_all (l1 ++ l2) t = bump_all l2 (bump_all l1 t).
Proof. unfold bump_all. apply fold_left_app. Qed.

Lemma email_count_counted fs groups_path folders : forall t,
  forallb (scannable fs groups_path) folders = true ->
  fold_left (tally_folder fs groups_path) folders t
  = bump_all (flat_map (counted fs groups_path) folders) t.
Proof.
  induction folders as [|f folders IH]; intros t H; [reflexivity|].
  cbn [forallb] in H. apply andb_prop in H. destruct H as [Hf Hfs].
  cbn [fold_left flat_map]. rewrite bump_all_app, tally_folder_counted by auto.
  now apply IH.
Qed.

Lemma bump_count e t e' :
  tally_count (bump (JStr e) t) e'
  = (tally_count t e' + if str_eqb e e' then 1 else 0)%Z.
Proof.
  induction t as [|[k n] r IH]; cbn [bump tally_count].
  - cbn [Py.eqb]. destruct (str_eqb e e'); lia.
  - destruct (Py.eqb k (JStr e)) eqn:K; cbn [tally_count].
    + apply eqb_str in K. subst k. cbn [Py.eqb].
      destruct (str_eqb e e'); lia.
    + destruct (Py.eqb k (JStr e')) eqn:K'.
      * apply eqb_str in K'. subst k. cbn [Py.eqb] in K.
        destruct (str_eqb e e') eqn:E; [|lia].
        apply str_eqb_eq in E. subst.
        rewrite str_eqb_refl in K. discriminate.
      * exact IH.
Qed.

Lemma bump_all_count l : forall t e',
  tally_count (bump_all l t) e' = (tally_count t e' + occurrences e' l)%Z.
Proof.
  induction l as [|e l IH]; intros t e'; cbn [occurrences].
  - unfold bump_all. simpl. lia.
  - unfold bump_all in *. cbn [fold_left]. rewrite IH, bump_count. lia.
Qed.

(** The keys of [email_count] are strings, each held once, with a positive
    count. *)
Fixpoint keys_ok (t : tally) : Prop :=
  match t with
  | [] => True
  | (k, n) :: r =>
      (exists e, k = JStr e /\ tally_count r e = 0%Z) /\ (1 <= n)%Z
      /\ keys_ok r
  end.

Lemma bump_keys_ok e t : keys_ok t -> keys_ok (bump (JStr e) t).
Proof.
  induction t as [|[k n] r IH]; cbn [bump keys_ok].
  - intros _. repeat split; try lia. now exists e.
  - intros ((e0 & -> & H0) & Hn & Hr). cbn [Py.eqb].
    destruct (str_eqb e0 e) eqn:E; cbn [keys_ok].
    + repeat split; auto; try lia. now exists e0.
    + repeat split; auto. exists e0. split; [reflexivity|].
      rewrite bump_count, H0.
      destruct (str_eqb e e0) eqn:E'; [|lia].
      apply str_eqb_eq in E'. subst. now rewrite str_eqb_refl in E.
Qed.

Lemma bump_all_keys_ok l : forall t, keys_ok t -> keys_ok (bump_all l t).
Proof.
  induction l as [|e l IH]; intros t H; [exact H|].
  unfold bump_all in *. cbn [fold_left]. now apply IH, bump_keys_ok.
Qed.

Lemma keys_ok_In t k n :
  keys_ok t -> In (k, n) t ->
  exists e, k = JStr e /\ n = tally_count t e /\ (1 <= n)%Z.
Proof.
  induction t as [|[k0 n0] r IH]; [contradiction|].
  intros ((e0 & -> & H0) & Hn & Hr) [E|Hin].
  - injection E as <- <-. exists e0. cbn [tally_count Py.eqb].
    now rewrite str_eqb_refl.
  - destruct (IH Hr Hin) as (e & -> & -> & Hpos).
    exists e. cbn [tally_count Py.eqb].
    destruct (str_eqb e0 e) eqn:E; [|auto].
    apply str_eqb_eq in E. subst. lia.
Qed.

Lemma tally_count_In t e :
  keys_ok t -> tally_count t e <> 0%Z -> In (JStr e, tally_count t e) t.
Proof.
  induction t as [|[k0 n0] r IH]; cbn [tally_count]; [tauto|].
  intros ((e0 & -> & H0) & Hn & Hr) H. cbn [Py.eqb] in *.
  destruct (str_eqb e0 e) eqn:E.
  - apply str_eqb_eq in E. subst. now left.
  - right. now apply IH.
Qed.

Lemma max_key_spec t : forall best,
  exists n, In (max_key best t, n) (best :: t)
    /\ forall k' n', In (k', n') (best :: t) -> (n' <= n)%Z.
Proof.
  induction t as [|[k n] r IH]; intros [k0 n0]; cbn [max_key].
  - exists n0. split; [now left|]. intros k' n' [E|[]].
    injection E as <- <-. lia.
  - cbn [snd]. destruct (Z.ltb_spec n0 n) as [Hlt|Hge].
    + destruct (IH (k, n)) as (m & Hin & Hmax). exists m. split.
      * right. exact Hin.
      * intros k' n' [E|Hin']; [|now apply (Hmax k')].
        injection E as <- <-. specialize (Hmax k n (or_introl eq_refl)). lia.
    + destruct (IH (k0, n0)) as (m & Hin & Hmax). exists m. split.
      * destruct Hin as [E|Hin]; [now left | now right; right].
      * intros k' n' [E|[E|Hin']].
        -- apply (Hmax k'). now left.
        -- injection E as <- <-.
           specialize (Hmax k0 n0 (or_introl eq_refl)). lia.
        -- apply (Hmax k'). now right.
Qed.

Lemma occurrences_nonneg e l : (0 <= occurrences e l)%Z.
Proof.
  induction l as [|x l IH]; cbn [occurrences]; [lia|].
  destruct (str_eqb x e); lia.
Qed.

Lemma occurrences_In e l : (1 <= occurrences e l)%Z -> In e l.
Proof.
  induction l as [|x l IH]; cbn [occurrences]; [lia|].
  destruct (str_eqb x e) eqn:E.
  - apply str_eqb_eq in E. now left.
  - intros H. right. apply IH. lia.
Qed.

(** X1.  In an archive whose object-shaped messages files hold records with
    string senders, [detect_my_email] returns [None] exactly when no sender
    identity is seen in the first 200 messages of these files, and
    otherwise an identity that is seen there and that no other identity
    outnumbers. *)
Theorem detect_my_email_most_frequent (fs : filesystem) (groups_path : path) :
  forallb (scannable fs groups_path) (listdir fs groups_path) = true ->
  match flat_map (counted fs groups_path) (listdir fs groups_path) with
  | [] => detect_my_email fs groups_path = JNull
  | seen =>
      exists e,
        detect_my_email fs groups_path = JStr e
        /\ In e seen
        /\ forall e', (occurrences e' seen <= occurrences e seen)%Z
  end.
Proof.
  intros H. unfold detect_my_email.
  rewrite (email_count_counted _ _ _ [] H).
  set (seen := flat_map (counted fs groups_path) (listdir fs groups_path)).
  assert (Hcount : forall e, tally_count (bump_all seen []) e
                             = occurrences e seen)
    by (intros e; rewrite bump_all_count; simpl; lia).
  assert (Hkeys : keys_ok (bump_all seen [])) by (now apply bump_all_keys_ok).
  clearbody seen.
  destruct (bump_all seen []) as [|first rest] eqn:T.
  - destruct seen as [|s0 seen']; [reflexivity|]. exfalso.
    specialize (Hcount s0). cbn [tally_count occurrences] in Hcount.
    pose proof (occurrences_nonneg s0 seen').
    rewrite str_eqb_refl in Hcount. lia.
  - destruct (max_key_spec rest first) as (n & Hin & Hmax).
    destruct (keys_ok_In _ _ _ Hkeys Hin) as (e & Ek & En & Hpos).
    rewrite Hcount in En.
    assert (Hseen : In e seen) by (apply occurrences_In; lia).
    destruct seen as [|s0 seen'] eqn:S; [contradiction|].
    rewrite <- S in *.
    exists e. rewrite Ek. split; [reflexivity|]. split; [exact Hseen|].
    intros e'. rewrite <- En, <- Hcount.
    destruct (Z.eq_dec (tally_count (first :: rest) e') 0) as [Z0|NZ];
      [lia|].
    apply (Hmax (JStr e')). now apply tally_count_In.
Qed.

Lemma detect_my_email_most_frequent_witness :
  exists e, detect_my_email object_fs [lit "Groups"] = JStr e
            /\ In e (emails bob_messages).
Proof.
  pose proof (detect_my_email_most_frequent object_fs [lit "Groups"]
                ltac:(vm_compute; reflexivity)) as H.
  change (flat_map (counted object_fs [lit "Groups"])
            (listdir object_fs [lit "Groups"]))
    with (emails bob_messages) in H.
  destruct (emails bob_messages) as [|e0 l] eqn:E0; [discriminate E0|].
  destruct H as (e & E & Hin & _).
  exists e. split; [exact E | exact Hin].
Defined.

Lemma get_creator_fails msg :
  is_record msg = false ->
  (creator <- Py.get msg (lit "creator") (JObj []) ;;
   Py.get creator (lit "email") JNull) = Raise AttributeError.
Proof.
  destruct msg as [| | | | |kv]; try reflexivity. cbn [is_record Py.get bind].
  destruct (Py.lookup (lit "creator") kv) as [[| | | | |c]|];
    try discriminate; reflexivity.
Qed.

(** X2.  A message that is not a record ends the scan of its folder: the
    senders of the records in front of it stay counted, those behind it
    are not counted. *)
Theorem tally_folder_stops_at_damaged_message (fs : filesystem)
    (groups_path : path) (folder : str) (good rest : list json) (bad : json)
    (t : tally) :
  file fs (messages_json groups_path folder)
  = Some (Ok (JObj [(MESSAGES, JList (good ++ bad :: rest))])) ->
  (length good < 200)%nat ->
  forallb sender_ok good = true ->
  is_record bad = false ->
  tally_folder fs groups_path t folder = bump_all (emails good) t.
Proof.
  intros Hfile Hlen Hgood Hbad.
  unfold tally_folder, exists_, read_json. rewrite Hfile.
  cbn [negb bind Py.get]. change (Py.lookup MESSAGES [(MESSAGES, _)])
    with (Some (JList (good ++ bad :: rest))).
  cbn [Py.slice_prefix Py.iter bind].
  rewrite firstn_app.
  replace (firstn 200 good) with good by (symmetry; apply firstn_all2; lia).
  destruct (200 - length good)%nat as [|k] eqn:K; [lia|]. cbn [firstn].
  clear Hfile Hlen K. revert t.
  induction good as [|m good IH]; intros t.
  - cbn [app tally_messages emails]. now rewrite (get_creator_fails _ Hbad).
  - cbn [forallb] in Hgood. apply andb_prop in Hgood.
    destruct Hgood as [Hm Hgood]. specialize (IH Hgood).
    unfold sender_ok in Hm. apply andb_prop in Hm. destruct Hm as [Hrec Hem].
    cbn [app tally_messages emails]. rewrite (get_creator _ Hrec).
    cbn [bind Py.get]. unfold email_of. fold (sender_email m).
    destruct (sender_email m) as [| | |[|c s]| |]; try discriminate;
      cbn [Py.truthy Py.hashable]; apply IH.
Qed.

Definition damaged_fs : filesystem :=
  {| listdir := fun _ => [lit "DM 1"];
     file := find_file
       [([lit "Groups"; lit "DM 1"; lit "messages.json"],
         Ok (JObj [(MESSAGES,
                    JList ([plain_msg "b@x.com" "Bob" "hi"]
                           ++ JStr (lit "oops")
                              :: [plain_msg "a@x.com" "Alice" "one";
                                  plain_msg "a@x.com" "Alice" "two"]))]))] |}.

Lemma tally_folder_stops_at_damaged_message_witness :
  tally_folder damaged_fs [lit "Groups"] [] (lit "DM 1")
  = [(JStr (lit "b@x.com"), 1%Z)]
  /\ detect_my_email damaged_fs [lit "Groups"] = JStr (lit "b@x.com").
Proof.
  split; [|reflexivity].
  exact (tally_folder_stops_at_damaged_message damaged_fs [lit "Groups"]
           (lit "DM 1") [plain_msg "b@x.com" "Bob" "hi"]
           [plain_msg "a@x.com" "Alice" "one";
            plain_msg "a@x.com" "Alice" "two"]
           (JStr (lit "oops")) [] eq_refl ltac:(simpl; lia) eq_refl eq_refl).
Defined.

(** ** Pinned messages *)

Lemma count_extract_in ms :
  match extract_pinned_in ms with
  | Ok kept => count_pinned_in ms = Ok (Z.of_nat (length kept))
  | Raise e => count_pinned_in ms = Raise e
  end.
Proof.
  induction ms as [|m ms IH]; [reflexivity|].
  cbn [extract_pinned_in count_pinned_in].
  destruct (is_pinned m) as [b|e]; cbn [bind]; [|reflexivity].
  destruct (extract_pinned_in ms) as [kept|e]; rewrite IH; cbn [bind];
    [|reflexivity].
  destruct b; cbn [length]; f_equal; lia.
Qed.

(** X3.  On every value, [count_pinned] is the length of what
    [extract_pinned] returns, and the two raise the same exception when one
    does. *)
Theorem count_pinned_is_length_of_extract (messages : json) :
  match extract_pinned messages with
  | Ok (JList kept) => count_pinned messages = Ok (Z.of_nat (length kept))
  | Ok _ => False
  | Raise e => count_pinned messages = Raise e
  end.
Proof.
  unfold extract_pinned, count_pinned.
  destruct (Py.iter messages) as [ms|e]; cbn [bind]; [|reflexivity].
  pose proof (count_extract_in ms) as H.
  destruct (extract_pinned_in ms); exact H.
Qed.

Lemma extract_pinned_in_filter ms :
  forallb has_label_list ms = true ->
  extract_pinned_in ms = Ok (filter carries_pinned ms).
Proof.
  induction ms as [|m ms IH]; [reflexivity|]. cbn [forallb].
  intros H. apply andb_prop in H. destruct H as [Hm Hms].
  cbn [extract_pinned_in filter].
  rewrite (is_pinned_spec _ Hm), (IH Hms). cbn [bind].
  destruct (carries_pinned m); reflexivity.
Qed.

Lemma filter_filter {A} (p : A -> bool) l : filter p (filter p l) = filter p l.
Proof.
  induction l as [|x l IH]; [reflexivity|]. cbn [filter].
  destruct (p x) eqn:P; [|exact IH]. cbn [filter]. now rewrite P, IH.
Qed.

Lemma forallb_filter {A} (p q : A -> bool) l :
  forallb q l = true -> forallb q (filter p l) = true.
Proof.
  rewrite !forallb_forall. intros H x Hx. apply filter_In in Hx.
  apply H. tauto.
Qed.

(** X4.  On a list of messages with well-formed labels, [extract_pinned]
    keeps, in order, exactly the messages that carry a label of type
    ["PINNED"]; extracting again changes nothing. *)
Theorem extract_pinned_keeps_pinned (ms : list json) :
  forallb has_label_list ms = true ->
  extract_pinned (JList ms) = Ok (JList (filter carries_pinned ms))
  /\ extract_pinned (JList (filter carries_pinned ms))
     = Ok (JList (filter carries_pinned ms)).
Proof.
  intros H. unfold extract_pinned. cbn [Py.iter bind].
  rewrite (extract_pinned_in_filter _ H).
  rewrite (extract_pinned_in_filter _ (forallb_filter _ _ _ H)).
  cbn [bind]. now rewrite filter_filter.
Qed.

Lemma extract_pinned_keeps_pinned_witness :
  extract_pinned
    (JList [pinned_msg "c@x.com" "Carol" "keep this";
            plain_msg "a@x.com" "Alice" "ok";
            pinned_msg "a@x.com" "Alice" ""])
  = Ok (JList [pinned_msg "c@x.com" "Carol" "keep this";
               pinned_msg "a@x.com" "Alice" ""]).
Proof.
  exact (proj1 (extract_pinned_keeps_pinned
                  [pinned_msg "c@x.com" "Carol" "keep this";
                   plain_msg "a@x.com" "Alice" "ok";
                   pinned_msg "a@x.com" "Alice" ""] eq_refl)).
Defined.

Lemma any_pinned_app pre rest :
  forallb is_object pre = true ->
  existsb is_pinned_label pre = false ->
  any_pinned (pre ++ rest) = any_pinned rest.
Proof.
  induction pre as [|l pre IH]; [reflexivity|]. cbn [forallb existsb app].
  intros Hobj Hnone. apply andb_prop in Hobj. destruct Hobj as [Hl Hpre].
  apply orb_false_iff in Hnone. destruct Hnone as [Hn Hnpre].
  destruct l as [| | | | |kv]; try discriminate.
  cbn [any_pinned Py.get bind]. cbn [is_pinned_label] in Hn.
  destruct (Py.lookup (lit "label_type") kv) as [t|].
  - rewrite Hn. now apply IH.
  - change (Py.eqb JNull (JStr PINNED)) with false. cbn iota. now apply IH.
Qed.

(** X5.  [is_pinned] reads the labels up to the first one of type
    ["PINNED"] and no further: whatever follows that label, even values
    that are no labels, the message is pinned; a value that is not an
    object in front of it raises [AttributeError]. *)
Theorem is_pinned_stops_at_first_pin (kv : list (str * json))
    (pre rest : list json) (l junk : json) :
  Py.lookup (lit "message_labels") kv = Some (JList (pre ++ l :: rest)) ->
  forallb is_object pre = true ->
  existsb is_pinned_label pre = false ->
  is_pinned_label l = true ->
  is_object junk = false ->
  is_pinned (JObj kv) = Ok true
  /\ any_pinned (pre ++ junk :: l :: rest) = Raise AttributeError.
Proof.
  intros Hlab Hobj Hnone Hl Hjunk. split.
  - unfold is_pinned. cbn [Py.get bind]. rewrite Hlab. cbn [Py.iter bind].
    rewrite any_pinned_app by assumption.
    destruct l as [| | | | |lkv]; try discriminate.
    cbn [any_pinned Py.get bind]. cbn [is_pinned_label] in Hl.
    destruct (Py.lookup (lit "label_type") lkv); [|discriminate].
    now rewrite Hl.
  - rewrite any_pinned_app by assumption.
    destruct junk; try discriminate; reflexivity.
Qed.

Lemma is_pinned_stops_at_first_pin_witness :
  is_pinned
    (JObj [(lit "text", JStr (lit "x"));
           (lit "message_labels",
            JList ([JObj [(lit "label_type", JStr (lit "STARRED"))]]
                   ++ pinned_label :: [JNum 7; JNull]))])
  = Ok true.
Proof.
  exact (proj1 (is_pinned_stops_at_first_pin
                  [(lit "text", JStr (lit "x"));
                   (lit "message_labels",
                    JList ([JObj [(lit "label_type", JStr (lit "STARRED"))]]
                           ++ pinned_label :: [JNum 7; JNull]))]
                  [JObj [(lit "label_type", JStr (lit "STARRED"))]]
                  [JNum 7; JNull] pinned_label (JNum 0)
                  eq_refl eq_refl eq_refl eq_refl eq_refl)).
Defined.

(** ** The catalogue of the other two categories *)

Definition text_of (v : json) : str :=
  match v with JStr s => s | _ => [] end.

(** [" (📌 N)"] when there are pinned messages. *)
Definition annotation (n : Z) : str :=
  if (0 <? n)%Z then lit " (📌 " ++ str_of_Z n ++ lit ")" else [].

Definition messages_in (fs : filesystem) (groups_path : path) (folder : str)
  : list json :=
  match conversation fs groups_path folder with
  | Some ms => ms
  | None => []
  end.

(** The name shown for a direct conversation. *)
Definition dm_label (my_email : json) (ms : list json) : str :=
  text_of match find (names_counterpart my_email) ms with
          | Some m => sender_name m
          | None => JStr DELETED_USER
          end.

Definition dm_line (fs : filesystem) (groups_path : path) (my_email : json)
    (folder : str) : str :=
  lit "DM  "
  ++ ljust (dm_label my_email (messages_in fs groups_path folder)
            ++ annotation (pinned_in fs groups_path folder)) 45
  ++ lit " | " ++ folder.

(** The title shown for a space: the name of its metadata file when that
    is a non-empty string, the folder name otherwise. *)
Definition space_label (fs : filesystem) (groups_path : path) (folder : str)
  : str :=
  match get_space_title fs (groups_path ++ [folder]) with
  | JStr (c :: s) => c :: s
  | _ => folder
  end.

Definition space_line (fs : filesystem) (groups_path : path) (folder : str)
  : str :=
  lit "SP  "
  ++ ljust (space_label fs groups_path folder
            ++ annotation (pinned_in fs groups_path folder)) 45
  ++ lit " | " ++ folder.

Definition has_messages (fs : filesystem) (groups_path : path) (folder : str)
  : bool :=
  exists_ fs (messages_json groups_path folder).

Lemma dm_participant_label ms my_email :
  forallb message_ok ms = true ->
  get_dm_participant (JList ms) my_email = Ok (JStr (dm_label my_email ms)).
Proof.
  intros H. unfold get_dm_participant, dm_label. cbn [Py.iter bind].
  rewrite dm_participant_in_find
    by (revert H; apply forallb_weaken; intros x Hx;
        apply message_ok_parts in Hx; tauto).
  destruct (find (names_counterpart my_email) ms) as [m|] eqn:F;
    [|reflexivity].
  apply find_some in F. destruct F as [Hin _].
  rewrite forallb_forall in H. specialize (H m Hin).
  apply message_ok_parts in H. destruct H as (_ & _ & H).
  unfold name_is_text in H. destruct (sender_name m); try discriminate.
  reflexivity.
Qed.

Lemma annotate_text s n :
  annotate (JStr s) n = Ok (JStr (s ++ annotation n)).
Proof.
  unfold annotate, annotation. destruct (0 <? n)%Z; [reflexivity|].
  now rewrite app_nil_r.
Qed.

(** What the loop does with the folder of a well-formed archive, up to the
    test of the category. *)
Lemma catalog_step_loaded fs groups_path folder :
  conversation_ok fs groups_path folder = true ->
  has_messages fs groups_path folder = true ->
  load_messages fs (messages_json groups_path folder)
  = Ok (JList (messages_in fs groups_path folder))
  /\ forallb message_ok (messages_in fs groups_path folder) = true
  /\ count_pinned (JList (messages_in fs groups_path folder))
     = Ok (pinned_in fs groups_path folder).
Proof.
  unfold conversation_ok, has_messages, exists_, messages_in, pinned_in.
  rewrite load_messages_of. unfold conversation, read_json.
  destruct (file fs (messages_json groups_path folder)) as [[doc|e]|];
    try discriminate.
  cbn [bind].
  destruct (messages_of doc) as [| | | |ms|]; try discriminate.
  intros H _. apply andb_prop in H. destruct H as [Hms _].
  split; [reflexivity|]. split; [exact Hms|].
  unfold count_pinned. cbn [Py.iter bind]. apply count_pinned_in_spec.
  revert Hms. apply forallb_weaken. intros x Hx.
  apply message_ok_parts in Hx. tauto.
Qed.

Lemma catalog_step_dm fs groups_path my_email folder :
  conversation_ok fs groups_path folder = true ->
  catalog_step fs groups_path my_email (lit "DM") folder
  = Ok (if has_messages fs groups_path folder && startswith folder (lit "DM")
        then Some (dm_line fs groups_path my_email folder) else None).
Proof.
  intros Hok. unfold catalog_step.
  change (startswith (lit "DM") (lit "PINNED")) with false.
  change (startswith (lit "DM") (lit "DM")) with true.
  change (startswith (lit "DM") (lit "SPACE")) with false.
  fold (has_messages fs groups_path folder).
  destruct (has_messages fs groups_path folder) eqn:Hm; [|reflexivity].
  destruct (catalog_step_loaded fs groups_path folder Hok Hm)
    as (Hload & Hms & Hcount).
  rewrite Hload. cbn [bind]. rewrite Hcount. cbn [bind negb andb orb].
  destruct (startswith folder (lit "DM")); [|reflexivity].
  rewrite (dm_participant_label _ my_email Hms). cbn [bind].
  rewrite annotate_text. reflexivity.
Qed.

Lemma catalog_step_space fs groups_path my_email folder :
  conversation_ok fs groups_path folder = true ->
  catalog_step fs groups_path my_email (lit "SPACE") folder
  = Ok (if has_messages fs groups_path folder
           && startswith folder (lit "Space")
        then Some (space_line fs groups_path folder) else None).
Proof.
  intros Hok. unfold catalog_step.
  change (startswith (lit "SPACE") (lit "PINNED")) with false.
  change (startswith (lit "SPACE") (lit "DM")) with false.
  change (startswith (lit "SPACE") (lit "SPACE")) with true.
  fold (has_messages fs groups_path folder).
  destruct (has_messages fs groups_path folder) eqn:Hm; [|reflexivity].
  destruct (catalog_step_loaded fs groups_path folder Hok Hm)
    as (Hload & Hms & Hcount).
  rewrite Hload. cbn [bind]. rewrite Hcount. cbn [bind negb andb orb].
  destruct (startswith folder (lit "Space")); [|reflexivity].
  assert (Ht : (let title := get_space_title fs (groups_path ++ [folder]) in
                if Py.truthy title then title else JStr folder)
               = JStr (space_label fs groups_path folder)).
  { unfold conversation_ok in Hok. unfold has_messages, exists_ in Hm.
    destruct (file fs (messages_json groups_path folder)); [|discriminate].
    apply andb_prop in Hok. destruct Hok as [_ Htitle].
    unfold space_label. cbv zeta.
    destruct (get_space_title fs (groups_path ++ [folder]))
      as [|b|z|[|c s]|l|kv];
      try reflexivity;
      apply negb_true_iff in Htitle; now rewrite Htitle. }
  cbv zeta in Ht. rewrite Ht, annotate_text. reflexivity.
Qed.

Lemma build_entries_map fs groups_path my_email category
    (keep : str -> bool) (line : str -> str) folders :
  (forall folder, In folder folders ->
     catalog_step fs groups_path my_email category folder
     = Ok (if keep folder then Some (line folder) else None)) ->
  build_entries fs groups_path my_email category folders
  = Ok (map line (filter keep folders)).
Proof.
  induction folders as [|f folders IH]; intros H; [reflexivity|].
  cbn [build_entries filter]. rewrite (H f) by now left.
  rewrite IH by (intros g Hg; apply H; now right). cbn [bind].
  destruct (keep f); reflexivity.
Qed.

(** X6.  In a well-formed archive the category DM lists, in the order of
    the folder names, every folder with a messages file whose name starts
    with [DM], pinned or not, and nothing else.  Its line shows the name of
    the other participant (["Deleted User"] when no message names one),
    followed by the count of pinned messages when there are some. *)
Theorem dm_catalog (fs : filesystem) (groups_path : path) (my_email : json) :
  forallb (conversation_ok fs groups_path) (listdir fs groups_path) = true ->
  catalog fs groups_path my_email (lit "DM")
  = Ok (map (dm_line fs groups_path my_email)
          (filter (fun folder => has_messages fs groups_path folder
                                 && startswith folder (lit "DM"))
                  (sorted (listdir fs groups_path)))).
Proof.
  intros H. unfold catalog. apply build_entries_map.
  intros folder Hin. apply catalog_step_dm.
  rewrite forallb_forall in H. apply H, In_sorted, Hin.
Qed.

(** X7.  In a well-formed archive the category SPACE lists, in the order
    of the folder names, every folder with a messages file whose name
    starts with [Space], and nothing else.  Its line shows the name of the
    metadata file, or the folder name when that file is absent, unreadable
    or without a name, followed by the count of pinned messages when there
    are some. *)
Theorem space_catalog (fs : filesystem) (groups_path : path)
    (my_email : json) :
  forallb (conversation_ok fs groups_path) (listdir fs groups_path) = true ->
  catalog fs groups_path my_email (lit "SPACE")
  = Ok (map (space_line fs groups_path)
          (filter (fun folder => has_messages fs groups_path folder
                                 && startswith folder (lit "Space"))
                  (sorted (listdir fs groups_path)))).
Proof.
  intros H. unfold catalog. apply build_entries_map.
  intros folder Hin. apply catalog_step_space.
  rewrite forallb_forall in H. apply H, In_sorted, Hin.
Qed.

(** An archive with a space that has no metadata file and one whose
    metadata file is damaged. *)
Definition spaces_fs : filesystem :=
  {| listdir := fun _ => [lit "Space B"; lit "DM C1"; lit "Space A";
                          lit "Space C"];
     file := find_file
       [([lit "Groups"; lit "DM C1"; lit "messages.json"],
         Ok (JList [plain_msg "a@x.com" "Alice" "hello";
                    plain_msg "b@x.com" "Bob" "hi"]));
        ([lit "Groups"; lit "Space A"; lit "messages.json"],
         Ok (JList [pinned_msg "b@x.com" "Bob" "agenda"]));
        ([lit "Groups"; lit "Space A"; lit "group_info.json"],
         Ok (JObj [(lit "name", JStr (lit "Team"))]));
        ([lit "Groups"; lit "Space B"; lit "messages.json"],
         Ok (JObj [(MESSAGES, JList [])]));
        ([lit "Groups"; lit "Space C"; lit "messages.json"],
         Ok (JList [plain_msg "b@x.com" "Bob" "x"]));
        ([lit "Groups"; lit "Space C"; lit "group_info.json"],
         Raise JSONDecodeError)] |}.

Lemma dm_catalog_witness :
  catalog spaces_fs [lit "Groups"] (JStr (lit "a@x.com")) (lit "DM")
  = Ok [lit "DM  Bob                                           | DM C1"].
Proof.
  exact (dm_catalog spaces_fs [lit "Groups"] (JStr (lit "a@x.com"))
           ltac:(vm_compute; reflexivity)).
Defined.

Lemma space_catalog_witness :
  catalog spaces_fs [lit "Groups"] (JStr (lit "a@x.com")) (lit "SPACE")
  = Ok [lit "SP  Team (📌 1)                                    | Space A";
        lit "SP  Space B                                       | Space B";
        lit "SP  Space C                                       | Space C"].
Proof.
  exact (space_catalog spaces_fs [lit "Groups"] (JStr (lit "a@x.com"))
           ltac:(vm_compute; reflexivity)).
Defined.

Lemma ljust_length s w : (Z.to_nat w <= length (ljust s w))%nat.
Proof.
  unfold ljust, repeat_char, len. rewrite length_app, repeat_length. lia.
Qed.

Lemma entry_shape tag label folder e :
  entry tag label folder = Ok e ->
  exists padded,
    e = tag ++ padded ++ lit " | " ++ folder /\ (45 <= length padded)%nat.
Proof.
  unfold entry.
  destruct label as [|b|z|s|l|kv]; cbn [Py.format_ljust bind];
    try discriminate; intros E; injection E as <-;
    eexists; (split; [reflexivity|]);
    match goal with |- (_ <= length (ljust ?s _))%nat =>
      pose proof (ljust_length s 45) end; lia.
Qed.

(** X8.  Whatever the archive and the category, a folder gets a line only
    if it has a messages file and its name starts with [DM] or [Space];
    the line ends with [" | "] and the folder name, after at least 49
    characters (the tag and the label padded to 45), so that the folder
    names of short labels are aligned. *)
Theorem catalog_step_lists_conversations_only (fs : filesystem)
    (groups_path : path) (my_email : json) (category folder e : str) :
  catalog_step fs groups_path my_email category folder = Ok (Some e) ->
  has_messages fs groups_path folder = true
  /\ (startswith folder (lit "DM") = true
      \/ startswith folder (lit "Space") = true)
  /\ exists head,
       e = head ++ lit " | " ++ folder /\ (49 <= length head)%nat.
Proof.
  unfold catalog_step. fold (has_messages fs groups_path folder).
  destruct (has_messages fs groups_path folder); cbn [negb];
    [|discriminate].
  destruct (load_messages fs (messages_json groups_path folder))
    as [messages|]; cbn [bind]; [|discriminate].
  destruct (count_pinned messages) as [n|]; cbn [bind]; [|discriminate].
  destruct (startswith category (lit "PINNED") && (n =? 0)%Z);
    [discriminate|].
  assert (Hshape : forall tag label,
    length tag = 4%nat ->
    (e0 <- entry tag label folder ;; Ok (Some e0)) = Ok (Some e) ->
    exists head, e = head ++ lit " | " ++ folder /\ (49 <= length head)%nat).
  { intros tag label Htag H.
    destruct (entry tag label folder) as [e0|] eqn:E; cbn [bind] in H;
      [|discriminate].
    injection H as <-. destruct (entry_shape _ _ _ _ E) as (padded & -> & Hp).
    exists (tag ++ padded). rewrite <- app_assoc.
    split; [reflexivity|]. rewrite length_app. lia. }
  destruct ((startswith category (lit "DM")
             || startswith category (lit "PINNED"))
            && startswith folder (lit "DM")) eqn:DM.
  - apply andb_prop in DM. destruct DM as [_ DM].
    destruct (get_dm_participant messages my_email) as [name|];
      cbn [bind]; [|discriminate].
    destruct (annotate name n) as [name'|]; cbn [bind]; [|discriminate].
    intros H. split; [reflexivity|]. split; [now left|].
    now apply (Hshape (lit "DM  ") name').
  - destruct ((startswith category (lit "SPACE")
               || startswith category (lit "PINNED"))
              && startswith folder (lit "Space")) eqn:SP; [|discriminate].
    apply andb_prop in SP. destruct SP as [_ SP]. cbv zeta.
    destruct (annotate _ n) as [title'|]; cbn [bind]; [|discriminate].
    intros H. split; [reflexivity|]. split; [now right|].
    now apply (Hshape (lit "SP  ") title').
Qed.

Lemma catalog_step_lists_conversations_only_witness :
  has_messages demo_fs [lit "Groups"] (lit "DM C2") = true
  /\ exists head,
       lit "DM  Carol (📌 2)                                   | DM C2"
       = head ++ lit " | " ++ lit "DM C2" /\ (49 <= length head)%nat.
Proof.
  destruct (catalog_step_lists_conversations_only demo_fs [lit "Groups"]
              (JStr (lit "a@x.com")) PINNED_ONLY (lit "DM C2")
              (lit "DM  Carol (📌 2)                                   | DM C2")
              ltac:(vm_compute; reflexivity)) as (H1 & _ & H2).
  split; [exact H1 | exact H2].
Defined.

(** ** Opening the selected conversation *)

Lemma rstrip_app_space x c : isspace c = true -> rstrip (x ++ [c]) = rstrip x.
Proof.
  intros Hc. unfold rstrip. rewrite rev_app_distr. simpl. now rewrite Hc.
Qed.

(** From the line printed by the selector, with its newline, back to the
    folder. *)
Lemma selected_folder_of_line head folder :
  ~ In bar folder ->
  strip folder = folder ->
  selected_folder (run_fzf_result (head ++ lit " | " ++ folder ++ NL))
  = folder
  /\ run_fzf_result (head ++ lit " | " ++ folder ++ NL) <> [].
Proof.
  intros Hbar Hstrip. unfold selected_folder, run_fzf_result.
  change (lit " | ") with (space :: bar :: [space]).
  replace (head ++ (space :: bar :: [space]) ++ folder ++ NL)
    with ((head ++ [space]) ++ bar :: ((space :: folder) ++ NL))
    by (rewrite <- !app_assoc; reflexivity).
  unfold strip at 2 3.
  rewrite lstrip_app_stop, rstrip_app_stop by reflexivity.
  unfold NL. rewrite rstrip_app_space by reflexivity.
  split.
  - rewrite last_split_app, split_no_sep.
    + simpl last. now apply strip_after_space.
    + intros Hin. apply rstrip_In in Hin. destruct Hin as [Hin|Hin];
        [discriminate | tauto].
  - now destruct (lstrip (head ++ [space])).
Qed.

Section Opening.

Variable wcswidth : str -> Z.
Variable wordsep_split : str -> list str.
Variable TERMINAL_WIDTH : Z.
Variable strptime : str -> result datetime.
Variable format_year : Z -> str.
Variable py_repr : json -> str.

(** X9.  When the line of a folder is selected in the second menu, the
    text handed to the pager is the transcript of the messages of that
    folder (of its pinned messages under PINNED ONLY), provided the folder
    name holds no ["|"] and has no whitespace at its ends. *)
Theorem show_selected_opens_the_folder (fs : filesystem) (groups_path : path)
    (my_email : json) (category head folder : str) (ms : list json) :
  ~ In bar folder ->
  strip folder = folder ->
  conversation fs groups_path folder = Some ms ->
  show_selected wcswidth wordsep_split TERMINAL_WIDTH strptime format_year
    py_repr fs groups_path my_email category
    (head ++ lit " | " ++ folder ++ NL)
  = (messages <- (if startswith category (lit "PINNED")
                  then extract_pinned (JList ms) else Ok (JList ms)) ;;
     chat_text <- format_chat wcswidth wordsep_split TERMINAL_WIDTH strptime
                    format_year py_repr messages my_email
                    (startswith category (lit "PINNED")) ;;
     Ok (Some chat_text)).
Proof.
  intros Hbar Hstrip Hconv. unfold show_selected.
  destruct (selected_folder_of_line head folder Hbar Hstrip) as [Hsel Hne].
  rewrite Hsel.
  destruct (run_fzf_result (head ++ lit " | " ++ folder ++ NL));
    [tauto|].
  rewrite load_messages_of. unfold conversation in Hconv. unfold read_json.
  destruct (file fs (messages_json groups_path folder)) as [[doc|]|];
    try discriminate.
  cbn [bind]. destruct (messages_of doc); try discriminate.
  injection Hconv as ->. reflexivity.
Qed.

End Opening.

Example show_selected_pinned :
  show_selected Wcwidth.wcswidth Textwrap.wordsep_ascii 60 Strptime.strptime
    year4 repr_atom demo_fs [lit "Groups"] (JStr (lit "b@x.com")) PINNED_ONLY
    (lit "SP  Team (📌 1)                                    | Space S1" ++ NL)
  = Ok (Some (join NL
          [lit "📌 Showing ONLY pinned messages";
           [];
           [];
           lit "                                             [PINNED] You • ";
           lit "                       ┌───────────────────────────────────┐";
           lit "                       │ agenda                            │";
           lit "                       └───────────────────────────────────┘"])).
Proof. vm_compute. reflexivity. Qed.

Lemma show_selected_opens_the_folder_witness :
  show_selected Wcwidth.wcswidth Textwrap.wordsep_ascii 60 Strptime.strptime
    year4 repr_atom demo_fs [lit "Groups"] (JStr (lit "b@x.com")) (lit "DM")
    (lit "DM  anything" ++ lit " | " ++ lit "DM C1" ++ NL)
  = (chat_text <- format_chat Wcwidth.wcswidth Textwrap.wordsep_ascii 60
                    Strptime.strptime year4 repr_atom
                    (JList [plain_msg "a@x.com" "Alice" "hello";
                            plain_msg "b@x.com" "Bob" "hi"])
                    (JStr (lit "b@x.com")) false ;;
     Ok (Some chat_text)).
Proof.
  exact (show_selected_opens_the_folder Wcwidth.wcswidth
           Textwrap.wordsep_ascii 60 Strptime.strptime year4 repr_atom
           demo_fs [lit "Groups"] (JStr (lit "b@x.com")) (lit "DM")
           (lit "DM  anything") (lit "DM C1")
           [plain_msg "a@x.com" "Alice" "hello"; plain_msg "b@x.com" "Bob" "hi"]
           ltac:(vm_compute; intuition discriminate) eq_refl eq_refl).
Defined.

(** ** The transcript, message by message *)

(** The ["text"] of the message is a string, or absent. *)
Definition text_field_ok (msg : json) : bool :=
  match msg with
  | JObj kv =>
      match Py.lookup (lit "text") kv with
      | Some (JStr _) | None => true
      | Some _ => false
      end
  | _ => false
  end.

Definition stripped_text (msg : json) : str :=
  match msg with
  | JObj kv =>
      match Py.lookup (lit "text") kv with
      | Some (JStr s) => strip s
      | _ => []
      end
  | _ => []
  end.

(** The text that the bubble of a message shows, if it has a bubble. *)
Definition shown_text (msg : json) : option str :=
  match stripped_text msg with
  | [] => if carries_pinned msg then Some PLACEHOLDER else None
  | text => Some text
  end.

Definition created_date (msg : json) : json :=
  match msg with
  | JObj kv =>
      match Py.lookup (lit "created_date") kv with
      | Some v => v
      | None => JStr []
      end
  | _ => JStr []
  end.

Definition renderable (msg : json) : bool :=
  is_record msg && has_label_list msg && text_field_ok msg.

Section Document.

Variable wcswidth : str -> Z.
Variable wordsep_split : str -> list str.
Variable TERMINAL_WIDTH : Z.
Variable strptime : str -> result datetime.
Variable format_year : Z -> str.
Variable py_repr : json -> str.

#[local] Abbreviation WIDTH := (MAX_BUBBLE_WIDTH TERMINAL_WIDTH).
#[local] Abbreviation bubble :=
  (draw_bubble wcswidth wordsep_split TERMINAL_WIDTH).
#[local] Abbreviation block :=
  (chat_block wcswidth wordsep_split TERMINAL_WIDTH strptime format_year
     py_repr).
#[local] Abbreviation blocks :=
  (chat_blocks wcswidth wordsep_split TERMINAL_WIDTH strptime format_year
     py_repr).
#[local] Abbreviation format :=
  (format_chat wcswidth wordsep_split TERMINAL_WIDTH strptime format_year
     py_repr).

(** The date as [clean_date] leaves it. *)
Definition cleaned (v : json) : json :=
  match v with
  | JStr s =>
      match strptime s with
      | Ok dt => JStr (strftime format_year dt)
      | Raise _ => v
      end
  | _ => v
  end.

Definition is_mine (my_email msg : json) : bool :=
  Py.eqb (sender_email msg) my_email.

Definition side (my_email msg : json) : str :=
  if is_mine my_email msg then lit "right" else lit "left".

(** The header line of a message: the pin mark, ["You"] or the name of the
    sender, the date; pushed to the right margin for the viewer's own
    messages. *)
Definition header_of (my_email msg : json) : str :=
  let core :=
    (if carries_pinned msg then lit "[PINNED] " else [])
    ++ py_str py_repr (if is_mine my_email msg then JStr (lit "You")
                       else sender_name msg)
    ++ lit " • " ++ py_str py_repr (cleaned (created_date msg)) in
  if is_mine my_email msg then rjust core TERMINAL_WIDTH else core.

Lemma clean_date_cleaned v :
  clean_date strptime format_year v = Ok (cleaned v).
Proof.
  unfold clean_date, cleaned. destruct v as [| | |s| |]; try reflexivity.
  destruct (strptime s); reflexivity.
Qed.

(** X10.  What a well-formed message adds to the transcript.  Its text is
    stripped; without text it is skipped unless pinned, and then shown
    with the placeholder.  A message of the viewer is headed ["You"], its
    header is right-justified to the terminal width and its bubble drawn on
    the right; any other message is headed by the sender's name and drawn
    on the left. *)
Theorem chat_block_of_message (msg my_email : json) :
  renderable msg = true ->
  block msg my_email
  = match shown_text msg with
    | None => Ok []
    | Some text =>
        b <- bubble text (side my_email msg) ;;
        Ok [NL ++ header_of my_email msg; b]
    end.
Proof.
  unfold renderable. intros H.
  apply andb_prop in H. destruct H as [H Htext].
  apply andb_prop in H. destruct H as [Hrec Hlab].
  unfold chat_block. rewrite (get_creator _ Hrec). cbn [bind Py.get].
  rewrite (is_pinned_spec _ Hlab).
  unfold shown_text, stripped_text, header_of, side, is_mine, created_date,
    sender_email, sender_name.
  destruct msg as [| | | | |kv]; try discriminate.
  cbn [text_field_ok] in Htext. cbn [Py.get bind].
  rewrite clean_date_cleaned. cbn [bind].
  set (mine := Py.eqb _ my_email).
  assert (Halign : forall (a b : str),
    (if str_eqb (if mine then lit "right" else lit "left") (lit "right")
     then a else b) = if mine then a else b)
    by (intros; destruct mine; reflexivity).
  destruct (Py.lookup (lit "text") kv) as [[| | |s| |]|];
    try discriminate; cbn [bind].
  - destruct (strip s) as [|c r]; cbn [bind].
    + destruct (carries_pinned (JObj kv)); [|reflexivity].
      cbv zeta. now rewrite Halign.
    + cbv zeta. now rewrite Halign.
  - change (strip []) with (@nil char). cbn [bind].
    destruct (carries_pinned (JObj kv)); [|reflexivity].
    cbv zeta. now rewrite Halign.
Qed.

(** The bubble that is drawn, when the content width is at least 1. *)
Definition bubble_of (text align : str) : str :=
  match bubble text align with
  | Ok b => b
  | Raise _ => []
  end.

Definition block_of (my_email msg : json) : list str :=
  match shown_text msg with
  | None => []
  | Some text =>
      [NL ++ header_of my_email msg; bubble_of text (side my_email msg)]
  end.

Lemma chat_blocks_flat_map ms my_email :
  (1 <= WIDTH)%Z ->
  forallb renderable ms = true ->
  blocks ms my_email = Ok (flat_map (block_of my_email) ms).
Proof.
  intros Hw. induction ms as [|m ms IH]; [reflexivity|].
  cbn [forallb]. intros H. apply andb_prop in H. destruct H as [Hm Hms].
  cbn [chat_blocks flat_map]. rewrite (chat_block_of_message _ _ Hm).
  rewrite (IH Hms). unfold block_of, bubble_of.
  destruct (shown_text m) as [text|]; [|reflexivity].
  destruct (draw_bubble_ok wcswidth wordsep_split TERMINAL_WIDTH text
              (side my_email m) Hw) as [b Hb].
  rewrite Hb. reflexivity.
Qed.

(** X11.  With a content width of at least 1, the transcript of a list of
    well-formed messages is the banner followed, in file order, by the
    header and the bubble of each message that has text or is pinned, the
    parts joined by line feeds; the other messages leave no trace. *)
Theorem format_chat_document (ms : list json) (my_email : json)
    (pinned_only : bool) :
  (1 <= WIDTH)%Z ->
  forallb renderable ms = true ->
  format (JList ms) my_email pinned_only
  = Ok (join NL ((if pinned_only then BANNER_PINNED else BANNER_NAVIGATION)
                 :: flat_map (block_of my_email) ms)).
Proof.
  intros Hw H. unfold format_chat. cbn [Py.iter bind].
  now rewrite (chat_blocks_flat_map _ _ Hw H).
Qed.

Lemma renderable_labels ms :
  forallb renderable ms = true -> forallb has_label_list ms = true.
Proof.
  apply forallb_weaken. unfold renderable. intros x Hx.
  apply andb_prop in Hx. destruct Hx as [Hx _].
  apply andb_prop in Hx. tauto.
Qed.

(** X12.  The pinned-only view ([extract_pinned], then [format_chat]):
    with a content width of at least 1 and well-formed messages, every
    pinned message is shown, none is dropped, and each header carries the
    mark [[PINNED]]. *)
Theorem pinned_view_shows_every_pinned_message (ms : list json)
    (my_email : json) :
  (1 <= WIDTH)%Z ->
  forallb renderable ms = true ->
  (pinned <- extract_pinned (JList ms) ;; format pinned my_email true)
  = Ok (join NL (BANNER_PINNED
                 :: flat_map (block_of my_email) (filter carries_pinned ms)))
  /\ forall m, In m (filter carries_pinned ms) ->
       exists (k : nat) (rest text : str),
         shown_text m = Some text
         /\ block_of my_email m
            = [NL ++ repeat space k ++ lit "[PINNED] " ++ rest;
               bubble_of text (side my_email m)].
Proof.
  intros Hw H. split.
  - unfold extract_pinned. cbn [Py.iter bind].
    rewrite (extract_pinned_in_filter _ (renderable_labels _ H)).
    cbn [bind]. apply (format_chat_document _ _ true Hw).
    now apply forallb_filter.
  - intros m Hm. apply filter_In in Hm. destruct Hm as [_ Hpin].
    unfold block_of, shown_text, header_of. rewrite Hpin.
    assert (Hshown : exists text,
      match stripped_text m with
      | [] => Some PLACEHOLDER
      | c :: r => Some (c :: r)
      end = Some text) by (destruct (stripped_text m); eauto).
    destruct Hshown as [text Htext].
    destruct (is_mine my_email m).
    + eexists _, _, text. split; [exact Htext|]. rewrite Htext.
      unfold rjust, repeat_char. reflexivity.
    + exists 0%nat. eexists _, text. split; [exact Htext|]. rewrite Htext.
      reflexivity.
Qed.

(** X13.  On a terminal of fewer than two columns the content width is 0:
    [draw_bubble] raises [ValueError] for every text, and so does
    [format_chat] on any list of well-formed messages of which one has text
    or is pinned. *)
Theorem narrow_terminal_raises (ms : list json) (my_email : json)
    (pinned_only : bool) (text align : str) :
  (0 <= TERMINAL_WIDTH <= 1)%Z ->
  forallb renderable ms = true ->
  existsb (fun m => match shown_text m with Some _ => true | None => false end)
    ms = true ->
  bubble text align = Raise ValueError
  /\ format (JList ms) my_email pinned_only = Raise ValueError.
Proof.
  intros HT Hok Hshown.
  assert (Hb : forall t a, bubble t a = Raise ValueError).
  { intros t a. unfold draw_bubble, Textwrap.wrap, Textwrap.wrap_chunks.
    assert (E : WIDTH = 0%Z).
    { unfold MAX_BUBBLE_WIDTH.
      assert (TERMINAL_WIDTH = 0 \/ TERMINAL_WIDTH = 1)%Z as [-> | ->] by lia;
        reflexivity. }
    rewrite E. reflexivity. }
  split; [apply Hb|].
  unfold format_chat. cbn [Py.iter bind].
  assert (Hblocks : blocks ms my_email = Raise ValueError).
  { clear pinned_only. induction ms as [|m ms IH]; [discriminate|].
    cbn [forallb existsb] in *. apply andb_prop in Hok.
    destruct Hok as [Hm Hms]. cbn [chat_blocks].
    rewrite (chat_block_of_message _ _ Hm).
    destruct (shown_text m) as [t|].
    - now rewrite Hb.
    - cbn [bind orb] in *. now rewrite (IH Hms Hshown). }
  now rewrite Hblocks.
Qed.

End Document.

Lemma chat_block_of_message_witness :
  chat_block Wcwidth.wcswidth Textwrap.wordsep_ascii 40 Strptime.strptime
    year4 repr_atom (plain_msg "a@x.com" "Alice" "  hello there ")
    (JStr (lit "a@x.com"))
  = Ok [NL ++ lit "                                  You • ";
        join NL [lit "              ┌────────────────────────┐";
                 lit "              │ hello there            │";
                 lit "              └────────────────────────┘"]].
Proof.
  exact (chat_block_of_message Wcwidth.wcswidth Textwrap.wordsep_ascii 40
           Strptime.strptime year4 repr_atom
           (plain_msg "a@x.com" "Alice" "  hello there ")
           (JStr (lit "a@x.com")) ltac:(vm_compute; reflexivity)).
Defined.

Definition demo_messages : list json :=
  [plain_msg "a@x.com" "Alice" "hello"; sticker_msg [];
   sticker_msg [pinned_label]; pinned_msg "b@x.com" "Bob" "agenda"].

Lemma format_chat_document_witness :
  format_chat Wcwidth.wcswidth Textwrap.wordsep_ascii 60 Strptime.strptime
    year4 repr_atom (JList demo_messages) (JStr (lit "a@x.com")) false
  = Ok (join NL
          (BANNER_NAVIGATION
           :: flat_map (block_of Wcwidth.wcswidth Textwrap.wordsep_ascii 60
                          Strptime.strptime year4 repr_atom
                          (JStr (lit "a@x.com")))
                [plain_msg "a@x.com" "Alice" "hello";
                 sticker_msg [pinned_label];
                 pinned_msg "b@x.com" "Bob" "agenda"])).
Proof.
  assert (Hw : (1 <= MAX_BUBBLE_WIDTH 60)%Z) by (apply Z.leb_le; reflexivity).
  exact (format_chat_document Wcwidth.wcswidth Textwrap.wordsep_ascii 60
           Strptime.strptime year4 repr_atom demo_messages
           (JStr (lit "a@x.com")) false Hw eq_refl).
Defined.

Lemma pinned_view_shows_every_pinned_message_witness :
  (pinned <- extract_pinned (JList demo_messages) ;;
   format_chat Wcwidth.wcswidth Textwrap.wordsep_ascii 60 Strptime.strptime
     year4 repr_atom pinned (JStr (lit "a@x.com")) true)
  = Ok (join NL
          (BANNER_PINNED
           :: flat_map (block_of Wcwidth.wcswidth Textwrap.wordsep_ascii 60
                          Strptime.strptime year4 repr_atom
                          (JStr (lit "a@x.com")))
                [sticker_msg [pinned_label];
                 pinned_msg "b@x.com" "Bob" "agenda"])).
Proof.
  assert (Hw : (1 <= MAX_BUBBLE_WIDTH 60)%Z) by (apply Z.leb_le; reflexivity).
  exact (proj1 (pinned_view_shows_every_pinned_message Wcwidth.wcswidth
                  Textwrap.wordsep_ascii 60 Strptime.strptime year4 repr_atom
                  demo_messages (JStr (lit "a@x.com")) Hw eq_refl)).
Defined.

Lemma narrow_terminal_raises_witness :
  format_chat Wcwidth.wcswidth Textwrap.wordsep_ascii 1 Strptime.strptime
    year4 repr_atom (JList demo_messages) (JStr (lit "a@x.com")) false
  = Raise ValueError.
Proof.
  exact (proj2 (narrow_terminal_raises Wcwidth.wcswidth
                  Textwrap.wordsep_ascii 1 Strptime.strptime year4 repr_atom
                  demo_messages (JStr (lit "a@x.com")) false [] []
                  ltac:(lia) eq_refl eq_refl)).
Defined.

(** ** The bubble on the right *)

Definition no_break (line : str) : bool :=
  forallb (fun c => negb (is_linebreak c)) line.

Lemma splitlines_aux_line l : forall cur rest,
  no_break l = true ->
  splitlines_aux cur (l ++ rest) = splitlines_aux (rev l ++ cur) rest.
Proof.
  induction l as [|c l IH]; intros cur rest H; [reflexivity|].
  cbn [no_break forallb] in H. apply andb_prop in H. destruct H as [Hc Hl].
  apply negb_true_iff in Hc. cbn [app splitlines_aux]. rewrite Hc.
  rewrite IH by exact Hl. cbn [rev]. now rewrite <- app_assoc.
Qed.

Lemma splitlines_aux_newline cur rest :
  splitlines_aux cur (NL ++ rest) = rev cur :: splitlines_aux [] rest.
Proof. reflexivity. Qed.

(** [splitlines] undoes a join with line feeds, when no line holds a line
    boundary and the last line is not empty. *)
Lemma splitlines_join ls :
  forallb no_break ls = true ->
  last ls [space] <> [] ->
  splitlines (join NL ls) = ls.
Proof.
  unfold splitlines. induction ls as [|p ls IH]; intros Hnb Hlast;
    [reflexivity|].
  cbn [forallb] in Hnb. apply andb_prop in Hnb. destruct Hnb as [Hp Hls].
  destruct ls as [|q ls].
  - cbn [join last] in *. rewrite <- (app_nil_r p) at 1.
    rewrite splitlines_aux_line by exact Hp. rewrite app_nil_r.
    cbn [splitlines_aux].
    destruct (rev p) eqn:R.
    + apply (f_equal (@rev _)) in R. rewrite rev_involutive in R.
      now destruct Hlast.
    + rewrite <- R, rev_involutive. reflexivity.
  - change (join NL (p :: q :: ls)) with (p ++ NL ++ join NL (q :: ls)).
    rewrite splitlines_aux_line by exact Hp. rewrite app_nil_r.
    rewrite splitlines_aux_newline, rev_involutive. f_equal.
    apply IH; [exact Hls | exact Hlast].
Qed.

Lemma no_break_app a b :
  no_break (a ++ b) = no_break a && no_break b.
Proof. unfold no_break. apply forallb_app. Qed.

Lemma no_break_spaces n : no_break (repeat space n) = true.
Proof. induction n; [reflexivity | exact IHn]. Qed.

Lemma no_break_dashes n : no_break (concat (repeat (lit "─") n)) = true.
Proof. induction n; [reflexivity | exact IHn]. Qed.

Section RightBubble.

Variable wcswidth : str -> Z.
Variable wordsep_split : str -> list str.
Variable TERMINAL_WIDTH : Z.

#[local] Abbreviation WIDTH := (MAX_BUBBLE_WIDTH TERMINAL_WIDTH).

(** X14.  When no wrapped line holds a line boundary character, the bubble
    drawn on the right is the bubble drawn on the left with every line
    shifted by [TERMINAL_WIDTH - (contentWidth + 4)] spaces. *)
Theorem draw_bubble_right_shifts_left (text : str) (wrapped : list str) :
  Textwrap.wrap wordsep_split text WIDTH = Ok wrapped ->
  forallb no_break wrapped = true ->
  let lines := [frame_top WIDTH]
               ++ map (bubble_row wcswidth TERMINAL_WIDTH) wrapped
               ++ [frame_bottom WIDTH] in
  draw_bubble wcswidth wordsep_split TERMINAL_WIDTH text (lit "left")
  = Ok (join NL lines)
  /\ draw_bubble wcswidth wordsep_split TERMINAL_WIDTH text (lit "right")
     = Ok (join NL
             (map (fun l => repeat_char space
                              (TERMINAL_WIDTH - (WIDTH + 4)) ++ l) lines)).
Proof.
  intros Hwrap Hnb lines. unfold draw_bubble. rewrite Hwrap. cbn [bind].
  change (str_eqb (lit "left") (lit "right")) with false.
  change (str_eqb (lit "right") (lit "right")) with true.
  cbv iota. fold (frame_top WIDTH) (frame_bottom WIDTH). fold lines.
  split; [reflexivity|].
  rewrite splitlines_join; [reflexivity| |].
  - unfold lines. rewrite !forallb_app. cbn [forallb].
    unfold frame_top, frame_bottom. rewrite !no_break_app, !no_break_dashes.
    cbn [andb]. change (no_break (lit "┌")) with true.
    change (no_break (lit "┐")) with true.
    change (no_break (lit "└")) with true.
    change (no_break (lit "┘")) with true. cbn [andb].
    rewrite andb_true_r. rewrite forallb_forall in *.
    intros row Hrow. apply in_map_iff in Hrow.
    destruct Hrow as (line & <- & Hline).
    unfold bubble_row, pad_text, repeat_char.
    rewrite !no_break_app, no_break_spaces, (Hnb line Hline). reflexivity.
  - unfold lines. rewrite app_assoc, last_last. unfold frame_bottom.
    discriminate.
Qed.

End RightBubble.

Lemma draw_bubble_right_shifts_left_witness :
  draw_bubble Wcwidth.wcswidth Textwrap.wordsep_ascii 20
    (lit "the quick brown fox") (lit "right")
  = Ok (join NL
          (map (fun l => repeat_char space 5 ++ l)
             ([frame_top 11]
              ++ map (bubble_row Wcwidth.wcswidth 20)
                   [lit "the quick"; lit "brown fox"]
              ++ [frame_bottom 11]))).
Proof.
  exact (proj2 (draw_bubble_right_shifts_left Wcwidth.wcswidth
                  Textwrap.wordsep_ascii 20 (lit "the quick brown fox")
                  [lit "the quick"; lit "brown fox"]
                  ltac:(vm_compute; reflexivity) eq_refl)).
Defined.

(** A file separator (U+001C) in the text stays in the wrapped line; on
    the right, [splitlines] cuts the row there and the box is torn (the
    row is also one space too long, the character being a control
    character). *)
Example draw_bubble_right_torn :
  draw_bubble Wcwidth.wcswidth Textwrap.wordsep_ascii 20
    (lit "ab" ++ [28%N] ++ lit "cd") (lit "right")
  = Ok (join NL [lit "     ┌─────────────┐";
                 lit "     │ ab";
                 lit "     cd             │";
                 lit "     └─────────────┘"]).
Proof. vm_compute. reflexivity. Qed.

(** ** The archive that is extracted *)







Example find_latest_takeout_zip_demo :
  let fs := {| listdir := fun _ => [lit "takeout-a.zip"; lit "notes.txt";
                                    lit "takeout-b.zip"; lit "takeout-c.zip"];
               file := fun _ => None |} in
  let getmtime := fun p : path =>
    if str_eqb (last p []) (lit "takeout-a.zip") then QArith_base.Qmake 1 1
    else if str_eqb (last p []) (lit "notes.txt") then QArith_base.Qmake 9 1
    else QArith_base.Qmake 5 2 in
  find_latest_takeout_zip fs getmtime [lit "Downloads"]
  = Some [lit "Downloads"; lit "takeout-b.zip"].
Proof. vm_compute. reflexivity. Qed.

(** ** The requirements check *)

Definition CHECKING : str := lit "🔍 Checking requirements..." ++ NL.
Definition SATISFIED : str := lit "✅ All requirements satisfied." ++ NL.
Definition WCWIDTH_MISSING : str :=
  lit "❌ Missing Python package: wcwidth" ++ NL.

(** The three requirements of [check_dependencies]. *)
Definition requirements_met (env : environment) : bool :=
  negb (version_before (version_info env) 3 8)
  && wcwidth_installed env && fzf_on_path env.

Ltac not_printed :=
  let H := fresh in
  intros H; vm_compute in H;
  repeat (destruct H as [H|H]; [discriminate H|]); contradiction.

(** X16.  [check_dependencies] always prints the checking line first.  It
    returns exactly when the interpreter is at least 3.8, [wcwidth] is
    found and [fzf] is on the path, and exits with status 1 otherwise; the
    line saying that all requirements are satisfied is printed in the first
    case and in no other. *)
Theorem check_dependencies_verdict (env : environment) :
  hd_error (fst (check_dependencies env)) = Some CHECKING
  /\ snd (check_dependencies env)
     = (if requirements_met env then Returns else Exits 1)
  /\ (In SATISFIED (fst (check_dependencies env))
      <-> requirements_met env = true).
Proof.
  assert (Hfail : forall out : list str,
            hd_error out = Some CHECKING -> ~ In SATISFIED out ->
            hd_error (fst (out, Exits 1)) = Some CHECKING
            /\ snd (out, Exits 1) = Exits 1
            /\ (In SATISFIED (fst (out, Exits 1)) <-> false = true)).
  { intros out Hhd Hnot. cbn [fst snd]. split; [exact Hhd|].
    split; [reflexivity|].
    split; [intros H; destruct (Hnot H) | discriminate]. }
  unfold check_dependencies, requirements_met.
  destruct (version_before (version_info env) 3 8); cbn [negb andb].
  { apply Hfail; [vm_compute; reflexivity | not_printed]. }
  destruct (wcwidth_installed env); cbn [negb andb].
  2:{ apply Hfail; [vm_compute; reflexivity | not_printed]. }
  destruct (fzf_on_path env); cbn [negb andb].
  2:{ cbv zeta.
      destruct (str_eqb (system env) (lit "Linux"));
        [|destruct (str_eqb (system env) (lit "Darwin"));
          [|destruct (str_eqb (system env) (lit "Windows"))]];
        (apply Hfail; [vm_compute; reflexivity | not_printed]). }
  cbn [fst snd hd_error]. split; [vm_compute; reflexivity|].
  split; [reflexivity|]. split; [reflexivity|].
  intros _. right. left. vm_compute. reflexivity.
Qed.

(** X17.  Run as a script, the program never prints the hint to install
    [wcwidth]: the import at the top of the file fails before
    [check_dependencies] is called when the package is missing, so the
    check runs only with the package present.  A run that reaches the check
    has an interpreter of version 3.6 at least. *)
Theorem run_script_never_prints_wcwidth_hint (env : environment) :
  match run_script env with
  | Checked report =>
      report = check_dependencies env
      /\ ~ In WCWIDTH_MISSING (fst report)
      /\ wcwidth_installed env = true
      /\ version_before (version_info env) 3 6 = false
  | ImportFails => wcwidth_installed env = false
  | SyntaxFails => version_before (version_info env) 3 6 = true
  end.
Proof.
  unfold run_script.
  destruct (version_before (version_info env) 3 6); [reflexivity|].
  destruct (wcwidth_installed env) eqn:W; cbn [negb]; [|reflexivity].
  split; [reflexivity|]. split; [|split; reflexivity].
  unfold check_dependencies. rewrite W. cbn [negb].
  destruct (version_before (version_info env) 3 8);
    [cbn [fst]; not_printed|].
  destruct (fzf_on_path env); cbn [negb]; [cbn [fst]; not_printed|].
  cbv zeta.
  destruct (str_eqb (system env) (lit "Linux"));
    [|destruct (str_eqb (system env) (lit "Darwin"));
      [|destruct (str_eqb (system env) (lit "Windows"))]];
    cbn [fst]; not_printed.
Qed.

(** Called on its own with the package missing, [check_dependencies] does
    print the hint; the script ends at the import instead. *)
Example check_dependencies_wcwidth_missing :
  let env := {| version_info := (3, 11)%Z; version := lit "3.11.4";
                wcwidth_installed := false; fzf_on_path := true;
                system := lit "Linux" |} in
  In WCWIDTH_MISSING (fst (check_dependencies env))
  /\ snd (check_dependencies env) = Exits 1
  /\ run_script env = ImportFails.
Proof. vm_compute. repeat split. right. left. reflexivity. Qed.

(** The version message can only come from Python 3.6 or 3.7. *)
Example check_dependencies_old_python :
  let env := {| version_info := (3, 7)%Z; version := lit "3.7.9";
                wcwidth_installed := true; fzf_on_path := true;
                system := lit "Linux" |} in
  run_script env
  = Checked ([CHECKING; lit "❌ Python 3.8+ is required.";
              lit "Your version: 3.7.9"], Exits 1).
Proof. vm_compute. reflexivity. Qed.

(** ** Padding to a display width *)

(** X18.  For a text of printable ASCII and Latin-1 characters (the soft
    hyphen apart) and CJK ideographs, which are measured one by one,
    [pad_text] returns the text followed by spaces only, of display width
    the larger of the target and the width of the text: it pads up to the
    target and never truncates; padding the result again changes
    nothing. *)
Theorem pad_text_reaches_the_width (text : str) (width : Z) :
  forallb measured text = true ->
  Wcwidth.wcswidth (pad_text Wcwidth.wcswidth text width)
  = Z.max width (Wcwidth.wcswidth text)
  /\ (exists n, pad_text Wcwidth.wcswidth text width = text ++ repeat space n)
  /\ pad_text Wcwidth.wcswidth (pad_text Wcwidth.wcswidth text width) width
     = pad_text Wcwidth.wcswidth text width.
Proof.
  intros H.
  destruct (wcswidth_measured_spaces text
              (Z.to_nat (width - Wcwidth.wcswidth text)) H) as [H0 E].
  split; [|split].
  - rewrite pad_text_appends, E. lia.
  - eexists. apply pad_text_appends.
  - apply pad_text_unchanged. rewrite pad_text_appends, E. lia.
Qed.

Lemma pad_text_reaches_the_width_witness :
  Wcwidth.wcswidth (pad_text Wcwidth.wcswidth (lit "日本") 7) = 7%Z
  /\ pad_text Wcwidth.wcswidth (pad_text Wcwidth.wcswidth (lit "日本") 7) 7
     = pad_text Wcwidth.wcswidth (lit "日本") 7.
Proof.
  pose proof (pad_text_reaches_the_width (lit "日本") 7
                ltac:(vm_compute; reflexivity)) as (E & _ & I).
  split; [|exact I]. rewrite E. vm_compute. reflexivity.
Defined.

(** The property stops at the zero-width joiner: the first space appended
    behind it is not measured, so the padded text is one column short, and
    padding it again appends one more space. *)
Example pad_text_joiner :
  Wcwidth.wcswidth [97; 8205]%N = 1%Z
  /\ pad_text Wcwidth.wcswidth [97; 8205]%N 5 = [97; 8205]%N ++ repeat space 4
  /\ Wcwidth.wcswidth (pad_text Wcwidth.wcswidth [97; 8205]%N 5) = 4%Z
  /\ pad_text Wcwidth.wcswidth (pad_text Wcwidth.wcswidth [97; 8205]%N 5) 5
     = [97; 8205]%N ++ repeat space 5.
Proof. repeat split; vm_compute; reflexivity. Qed.
